(** * plot_particles.py: loader and renderer of a particle snapshot

    A shallow embedding of [load_particle_data] and [plot_3d_particles].
    Python objects with identity (numpy arrays, open file handles) live in
    an explicit [world]; library calls with an observable effect append an
    [event] to its trace; exceptions are the [Raised] outcome of a
    computation. *)

From Stdlib Require Import ZArith QArith Floats.PrimFloat Floats.SpecFloat Ascii String.
From stdpp Require Import base option list gmap strings pretty fin finite.

Set Warnings "-inexact-float".
#[local] Open Scope Z_scope.

(** ** Element arithmetic

    h5py hands a dataset back in the dtype it was stored with, and numpy
    computes in that dtype, so the source does not fix the arithmetic of the
    array elements.  [Dtype] collects what the script uses of it: the three
    rounded operations, the comparison behind [np.max], and the three float
    literals of the source as they read in the dtype. *)

Class Dtype (F : Type) := {
  fadd : F → F → F;
  fmul : F → F → F;
  fdiv : F → F → F;
  fle : F → F → bool;
  fisnan : F → bool;
  fisfinite : F → bool;
  fzero : F;
  fone : F;
  lit_3_0857e21 : F;
  lit_0_1 : F;
  lit_4_9 : F
}.

(** IEEE 754 binary64, numpy's [float64] and Python's [float]. *)
#[export] Instance binary64 : Dtype float := {|
  fadd := PrimFloat.add;
  fmul := PrimFloat.mul;
  fdiv := PrimFloat.div;
  fle := PrimFloat.leb;
  fisnan := PrimFloat.is_nan;
  fisfinite := PrimFloat.is_finite;
  fzero := 0%float;
  fone := 1%float;
  lit_3_0857e21 := 3.0857e21%float;
  lit_0_1 := 0.1%float;
  lit_4_9 := 4.9%float
|}.

(** Exact rational arithmetic, the arithmetic in which the specification
    writes its expected numbers.  It has no NaN and no infinity; division by
    zero is not used on it. *)
#[export] Instance exactQ : Dtype Q := {|
  fadd := Qplus;
  fmul := Qmult;
  fdiv := Qdiv;
  fle := Qle_bool;
  fisnan := λ _, false;
  fisfinite := λ _, true;
  fzero := 0%Q;
  fone := 1%Q;
  lit_3_0857e21 := (3085700000000000000000 # 1)%Q;
  lit_0_1 := (1 # 10)%Q;
  lit_4_9 := (49 # 10)%Q
|}.

(** A miniature IEEE 754 format: 3 significant bits and infinities at
    exponent 3, with the operations, the rounding to nearest even, the
    subnormals, signed zeros, infinities and NaN of the Standard Library's
    specification of floating point, which is binary64 at 53 bits and
    exponent 1024.  Its 43 values are small enough to check a law of the
    arithmetic on all of them. *)

Definition tiny_prec : Z := 3.
Definition tiny_emax : Z := 3.

Definition tiny_finite (s : bool) : list spec_float :=
  m ← [1; 2; 3; 4; 5; 6; 7]%positive;
  e ← [-3; -2; -1; 0];
  if bounded tiny_prec tiny_emax m e then [S754_finite s m e] else [].

Definition tiny_values : list spec_float :=
  [S754_nan; S754_zero false; S754_zero true;
   S754_infinity false; S754_infinity true]
  ++ tiny_finite false ++ tiny_finite true.

#[export] Instance spec_float_eq_dec : EqDecision spec_float.
Proof. solve_decision. Defined.

(** A value of the format is its position in [tiny_values]. *)
Definition tiny : Type := fin 43.

Definition tiny_decode (a : tiny) : spec_float :=
  default S754_nan (tiny_values !! fin_to_nat a).

Fixpoint index_of (x : spec_float) (l : list spec_float) : nat :=
  match l with
  | [] => 0
  | y :: l' => if decide (x = y) then 0 else S (index_of x l')
  end.

Fixpoint to_fin (n i : nat) : option (fin n) :=
  match n with
  | O => None
  | S n' =>
      match i with
      | O => Some 0%fin
      | S i' => FS <$> to_fin n' i'
      end
  end.

Definition tiny_encode (x : spec_float) : tiny :=
  default 0%fin (to_fin 43 (index_of x tiny_values)).

(** An integer, rounded to the format. *)
Definition tiny_of_Z (n : Z) : tiny :=
  tiny_encode (binary_normalize tiny_prec tiny_emax n 0 false).

(** The literals are the doubles of the source, rounded to the format. *)
#[export] Instance tiny_float : Dtype tiny := {|
  fadd a b := tiny_encode (SFadd tiny_prec tiny_emax (tiny_decode a) (tiny_decode b));
  fmul a b := tiny_encode (SFmul tiny_prec tiny_emax (tiny_decode a) (tiny_decode b));
  fdiv a b := tiny_encode (SFdiv tiny_prec tiny_emax (tiny_decode a) (tiny_decode b));
  fle a b := SFleb (tiny_decode a) (tiny_decode b);
  fisnan a := match tiny_decode a with S754_nan => true | _ => false end;
  fisfinite a :=
    match tiny_decode a with
    | S754_zero _ | S754_finite _ _ _ => true
    | _ => false
    end;
  fzero := tiny_of_Z 0;
  fone := tiny_of_Z 1;
  lit_3_0857e21 :=
    tiny_encode (binary_normalize tiny_prec tiny_emax 0x14e8d6132857db 19 false);
  lit_0_1 :=
    tiny_encode (binary_normalize tiny_prec tiny_emax 0x1999999999999a (-56) false);
  lit_4_9 :=
    tiny_encode (binary_normalize tiny_prec tiny_emax 0x1399999999999a (-50) false)
|}.

(** ** numpy arrays *)

(** A 1-D array, or a 2-D table of [ncols] columns stored by rows. *)
Inductive ndarray (F : Type) : Type :=
  | Arr1 (v : list F)
  | Arr2 (ncols : nat) (rows : list (list F)).
Arguments Arr1 {F} v.
Arguments Arr2 {F} ncols rows.

(** Every row of a 2-D table has [ncols] entries (always so in numpy). *)
Definition nd_wf {F} (a : ndarray F) : Prop :=
  match a with
  | Arr1 _ => True
  | Arr2 w rows => Forall (λ r, length r = w) rows
  end.

(** [len(a)]: the extent of the first axis. *)
Definition nd_len {F} (a : ndarray F) : nat :=
  match a with
  | Arr1 v => length v
  | Arr2 _ rows => length rows
  end.

(** The elements in storage order ([a.flat]). *)
Definition nd_flat {F} (a : ndarray F) : list F :=
  match a with
  | Arr1 v => v
  | Arr2 _ rows => concat rows
  end.

(** An element-wise operation with a scalar ([a / c], [c * a], [c + a]). *)
Definition nd_map {F} (f : F → F) (a : ndarray F) : ndarray F :=
  match a with
  | Arr1 v => Arr1 (fmap (M:=list) f v)
  | Arr2 w rows => Arr2 w (fmap (M:=list) (fmap (M:=list) f) rows)
  end.

(** The exceptions of the script.  [NameError] is the outcome of reading
    an object that does not exist, which no Python program can name; it
    makes the embedding total. *)
Inductive exn : Type :=
  | FileNotFoundError (path : string)
  | KeyError (key : string)
  | IndexError
  | ValueError
  | NameError.

Inductive outcome (A : Type) : Type :=
  | Returned (a : A)
  | Raised (e : exn).
Arguments Returned {A} a.
Arguments Raised {A} e.

(** [a[:, j]] for a literal column [j]: too many indices on a 1-D array,
    out of bounds past the last column. *)
Definition nd_column {F} (j : nat) (a : ndarray F) : outcome (ndarray F) :=
  match a with
  | Arr1 _ => Raised IndexError
  | Arr2 w rows =>
      if decide (j < w)%nat then
        match mapM (λ r : list F, r !! j) rows with
        | Some col => Returned (Arr1 col)
        | None => Raised IndexError
        end
      else Raised IndexError
  end.

(** The positions [skip], [skip + k], [skip + 2k], ... of a list. *)
Fixpoint stride_from {A} (k skip : nat) (l : list A) : list A :=
  match l with
  | [] => []
  | a :: l' =>
      match skip with
      | O => a :: stride_from k (k - 1) l'
      | S s => stride_from k s l'
      end
  end.

(** [l[::k]] on a Python sequence: a zero step is refused, a negative step
    walks from the last element backwards. *)
Definition py_slice_step {A} (k : Z) (l : list A) : outcome (list A) :=
  if decide (k = 0) then Raised ValueError
  else if decide (0 < k) then Returned (stride_from (Z.to_nat k) 0 l)
  else Returned (stride_from (Z.to_nat (- k)) 0 (reverse l)).

(** [a[::k]] slices the first axis. *)
Definition nd_slice_step {F} (k : Z) (a : ndarray F) : outcome (ndarray F) :=
  match a with
  | Arr1 v =>
      match py_slice_step k v with
      | Returned v' => Returned (Arr1 v')
      | Raised e => Raised e
      end
  | Arr2 w rows =>
      match py_slice_step k rows with
      | Returned rows' => Returned (Arr2 w rows')
      | Raised e => Raised e
      end
  end.

(** [np.maximum], the step of the [np.max] reduction: the left operand stays
    when it is NaN or not below the right one. *)
Definition np_maximum `{Dtype F} (a b : F) : F :=
  if fisnan a || fle b a then a else b.

(** [np.max(a)] over all elements; an empty array has no maximum. *)
Definition np_max `{Dtype F} (a : ndarray F) : outcome F :=
  match nd_flat a with
  | [] => Raised ValueError
  | v :: vs => Returned (foldl np_maximum v vs)
  end.

(** ** Formatting *)

(** Commas between groups of three digits, on the digits in reverse. *)
Fixpoint group3 (rev_digits : list ascii) : list ascii :=
  match rev_digits with
  | a :: b :: c :: (_ :: _) as rest => a :: b :: c :: ","%char :: group3 rest
  | _ => rev_digits
  end.

(** [f'{n:,}']: a count with thousands separators. *)
Definition thousands (n : nat) : string :=
  string_of_list_ascii (reverse (group3 (reverse (list_ascii_of_string (pretty n))))).

(** [f'3D Particle Distribution (N={n:,})'] *)
Definition plot_title (n : nat) : string :=
  "3D Particle Distribution (N=" +:+ thousands n +:+ ")".

(** ** The world of the script *)

Section Program.
Context {F : Type} `{!Dtype F}.

(** [s=] of [ax.scatter]: one size for all points, or one per point. *)
Inductive marker_size : Type :=
  | SizeScalar (s : F)
  | SizeArray (a : ndarray F).

Inductive axis3 : Type := AxisX | AxisY | AxisZ.

(** The observable calls of the script: a line on standard output and the
    matplotlib calls of the renderer.  [EvScatter] stands for the one
    scatter call with its fixed styling (royal blue, alpha 0.3, no edges,
    depth shading). *)
Inductive event : Type :=
  | EvPrint (text : string)
  | EvFigure (width height : Z)
  | EvAddSubplot3d
  | EvScatter (x y z : ndarray F) (s : marker_size)
  | EvSetLabel (ax : axis3) (text : string)
  | EvSetTitle (text : string)
  | EvGrid (on : bool)
  | EvPaneFill (ax : axis3) (fill : bool)
  | EvPaneEdgeColor (ax : axis3) (color : string)
  | EvSetBoxAspect (ax ay az : Z)
  | EvViewInit (elev azim : Z)
  | EvSaveFig (path : string)
  | EvTightLayout
  | EvShow.

(** [disk]: the HDF5 files by path, each a map from group names to groups,
    each group a map from table names to tables.  [handles]: the open file
    handles with the path each one reads.  [heap]: the numpy arrays by
    identity.  [trace]: the observable calls made so far, oldest first. *)
Record world : Type := World {
  disk : gmap string (gmap string (gmap string (ndarray F)));
  handles : gmap nat string;
  heap : gmap nat (ndarray F);
  trace : list event
}.

(** A Python computation: it runs in a world and returns or raises. *)
Definition py (A : Type) : Type := world → outcome A * world.

#[export] Instance py_ret : MRet py := λ A a w, (Returned a, w).

#[export] Instance py_bind : MBind py := λ A B k m w,
  match m w with
  | (Returned a, w') => k a w'
  | (Raised e, w') => (Raised e, w')
  end.

Definition raise {A} (e : exn) : py A := λ w, (Raised e, w).

Definition lift {A} (o : outcome A) : py A := λ w, (o, w).

(** *** h5py *)

(** [h5py.File(path, 'r')]: a new handle on an existing file. *)
Definition h5_open (path : string) : py nat := λ w,
  match disk w !! path with
  | None => (Raised (FileNotFoundError path), w)
  | Some _ =>
      let h := fresh (dom (handles w)) in
      (Returned h, World (disk w) (<[h := path]> (handles w)) (heap w) (trace w))
  end.

Definition h5_close (h : nat) (w : world) : world :=
  World (disk w) (delete h (handles w)) (heap w) (trace w).

(** [with h5py.File(path, 'r') as f: body]: the handle is closed when the
    body is left, by return or by exception, and the body's outcome is the
    outcome of the statement. *)
Definition with_file {A} (path : string) (body : nat → py A) : py A := λ w,
  match h5_open path w with
  | (Raised e, w1) => (Raised e, w1)
  | (Returned h, w1) => let '(r, w2) := body h w1 in (r, h5_close h w2)
  end.

(** Groups and datasets are lazy references into an open file. *)
Record group_ref : Type := GroupRef { g_file : nat; g_name : string }.
Record dataset_ref : Type := DatasetRef { d_group : group_ref; d_name : string }.

(** The content behind a handle; a closed handle reads nothing. *)
Definition h5_content (h : nat) : py (gmap string (gmap string (ndarray F))) := λ w,
  match handles w !! h with
  | None => (Raised ValueError, w)
  | Some path =>
      match disk w !! path with
      | Some content => (Returned content, w)
      | None => (Raised (FileNotFoundError path), w)
      end
  end.

(** [f[name]] *)
Definition file_getitem (h : nat) (name : string) : py group_ref :=
  content ← h5_content h;
  match content !! name with
  | Some _ => mret (GroupRef h name)
  | None => raise (KeyError name)
  end.

Definition group_tables (g : group_ref) : py (gmap string (ndarray F)) :=
  content ← h5_content (g_file g);
  match content !! g_name g with
  | Some tables => mret tables
  | None => raise (KeyError (g_name g))
  end.

(** [group[name]] *)
Definition group_getitem (g : group_ref) (name : string) : py dataset_ref :=
  tables ← group_tables g;
  match tables !! name with
  | Some _ => mret (DatasetRef g name)
  | None => raise (KeyError name)
  end.

(** [name in group] *)
Definition group_contains (g : group_ref) (name : string) : py bool :=
  tables ← group_tables g;
  mret (bool_decide (is_Some (tables !! name))).

(** [dataset[:]]: the whole table, read into memory. *)
Definition dataset_read (d : dataset_ref) : py (ndarray F) :=
  tables ← group_tables (d_group d);
  match tables !! d_name d with
  | Some a => mret a
  | None => raise (KeyError (d_name d))
  end.

(** *** numpy objects *)

(** A new array object. *)
Definition alloc (a : ndarray F) : py nat := λ w,
  let l := fresh (dom (heap w)) in
  (Returned l, World (disk w) (handles w) (<[l := a]> (heap w)) (trace w)).

Definition deref (l : nat) : py (ndarray F) := λ w,
  match heap w !! l with
  | Some a => (Returned a, w)
  | None => (Raised NameError, w)
  end.

(** [a[:, j]] as an object of its own. *)
Definition column_obj (j : nat) (a : ndarray F) : py nat :=
  col ← lift (nd_column j a); alloc col.

(** [a[::k]] as an object of its own.  numpy makes it a view of [a]; the
    script never writes through either. *)
Definition slice_obj (k : Z) (l : nat) : py nat :=
  a ← deref l; a' ← lift (nd_slice_step k a); alloc a'.

(** [len(a)] *)
Definition len_obj (l : nat) : py nat :=
  a ← deref l; mret (nd_len a).

(** *** matplotlib *)

Definition emit (ev : event) : py unit := λ w,
  (Returned (), World (disk w) (handles w) (heap w) (trace w ++ [ev])).

(** What [ax.scatter] accepts is the library's business (it refuses
    coordinates and sizes whose shapes do not agree). *)
Variable mpl_scatter_ok :
  ndarray F → ndarray F → ndarray F → marker_size → bool.

Definition scatter (x y z : nat) (s : marker_size) : py unit :=
  xa ← deref x; ya ← deref y; za ← deref z;
  if mpl_scatter_ok xa ya za s then emit (EvScatter xa ya za s)
  else raise ValueError.

(** ** The loader *)

Definition load_particle_data (filename : string) (part_type : Z)
  : py (nat * nat * nat * option nat) :=
  with_file filename (λ f,
    group ← file_getitem f ("PartType" +:+ pretty part_type);
    dset ← group_getitem group "Coordinates";
    raw ← dataset_read dset;
    let coords := nd_map (λ v, fdiv v lit_3_0857e21) raw in
    x ← column_obj 0 coords;
    y ← column_obj 1 coords;
    z ← column_obj 2 coords;
    has_masses ← group_contains group "Masses";
    masses ← (if has_masses : bool then
                dm ← group_getitem group "Masses";
                m ← dataset_read dm;
                l ← alloc m;
                mret (Some l)
              else mret None);
    mret (x, y, z, masses)).

(** ** The renderer *)

(** Lines 81-86: the subsampling block. *)
Definition apply_subsampling (x y z : nat) (masses : option nat) (subsample : Z)
  : py (nat * nat * nat * option nat) :=
  if decide (1 < subsample) then
    x ← slice_obj subsample x;
    y ← slice_obj subsample y;
    z ← slice_obj subsample z;
    masses ← match masses with
              | Some m => m' ← slice_obj subsample m; mret (Some m')
              | None => mret None
              end;
    mret (x, y, z, masses)
  else mret (x, y, z, masses).

(** Lines 89-91: the point sizes. *)
Definition point_sizes (masses : option nat) : py marker_size :=
  match masses with
  | None => mret (SizeScalar lit_0_1)
  | Some m =>
      a ← deref m;
      top ← lift (np_max a);
      let ratio := nd_map (λ v, fdiv v top) a in
      let scaled := nd_map (fmul lit_4_9) ratio in
      mret (SizeArray (nd_map (fadd lit_0_1) scaled))
  end.

Definition plot_3d_particles (x y z : nat) (masses : option nat) (subsample : Z)
  : py unit :=
  emit (EvFigure 10 8);;
  emit EvAddSubplot3d;;
  '(x, y, z, masses) ← apply_subsampling x y z masses subsample;
  sizes ← point_sizes masses;
  scatter x y z sizes;;
  emit (EvSetLabel AxisX "X [kpc]");;
  emit (EvSetLabel AxisY "Y [kpc]");;
  emit (EvSetLabel AxisZ "Z [kpc]");;
  n ← len_obj x;
  emit (EvSetTitle (plot_title n));;
  emit (EvGrid false);;
  emit (EvPaneFill AxisX false);;
  emit (EvPaneFill AxisY false);;
  emit (EvPaneFill AxisZ false);;
  emit (EvPaneEdgeColor AxisX "w");;
  emit (EvPaneEdgeColor AxisY "w");;
  emit (EvPaneEdgeColor AxisZ "w");;
  emit (EvSetBoxAspect 1 1 1);;
  emit (EvViewInit 30 45);;
  emit (EvSaveFig "single_nebula_1.png");;
  emit EvTightLayout;;
  emit EvShow.

(** ** The entry point *)

Definition SNAPSHOT_FILE : string := "single_nebula_1.hdf5".
Definition PARTICLE_TYPE : Z := 0.
Definition SUBSAMPLE : Z := 1.

Definition main : py unit :=
  emit (EvPrint ("Loading particles from " +:+ SNAPSHOT_FILE +:+ "..."));;
  '(x, y, z, masses) ← load_particle_data SNAPSHOT_FILE PARTICLE_TYPE;
  n ← len_obj x;
  emit (EvPrint ("Plotting " +:+ thousands n +:+ " particles..."));;
  plot_3d_particles x y z masses SUBSAMPLE.

(** ** Observations used by the statements *)

(** The arguments of the scatter calls in a trace. *)
Definition scatter_calls (t : list event)
  : list (ndarray F * ndarray F * ndarray F * marker_size) :=
  omap (λ ev, match ev with
              | EvScatter x y z s => Some (x, y, z, s)
              | _ => None
              end) t.


(** What a call of the loader hands back, by value: the exception, or the
    content of the four returned objects in the world the call leaves. *)
Definition result_arrays (rw : outcome (nat * nat * nat * option nat) * world)
  : outcome (option (ndarray F) * option (ndarray F) * option (ndarray F)
             * option (option (ndarray F))) :=
  match rw.1 with
  | Raised e => Raised e
  | Returned (x, y, z, masses) =>
      Returned (heap rw.2 !! x, heap rw.2 !! y, heap rw.2 !! z,
                (λ m, heap rw.2 !! m) <$> masses)
  end.

(** The tables the loader reads out of a file's content, as a function of
    the content alone. *)
Definition snapshot_arrays
    (content : gmap string (gmap string (ndarray F))) (part_type : Z)
  : outcome (ndarray F * ndarray F * ndarray F * option (ndarray F)) :=
  match content !! ("PartType" +:+ pretty part_type) with
  | None => Raised (KeyError ("PartType" +:+ pretty part_type))
  | Some tables =>
      match tables !! "Coordinates" with
      | None => Raised (KeyError "Coordinates")
      | Some raw =>
          let coords := nd_map (λ v, fdiv v lit_3_0857e21) raw in
          match nd_column 0 coords with
          | Raised e => Raised e
          | Returned x =>
              match nd_column 1 coords with
              | Raised e => Raised e
              | Returned y =>
                  match nd_column 2 coords with
                  | Raised e => Raised e
                  | Returned z => Returned (x, y, z, tables !! "Masses")
                  end
              end
          end
      end
  end.

(** The optional mass array by value: absent, or the 1-D array [ms]. *)
Definition masses_are (w : world) (masses : option nat) (oms : option (list F))
  : Prop :=
  match masses, oms with
  | None, None => True
  | Some m, Some ms => heap w !! m = Some (Arr1 ms)
  | _, _ => False
  end.

(** [w'] is [w] with more array objects: what a computation leaves behind
    that plots nothing and writes to no existing object. *)
Definition allocates (w w' : world) : Prop :=
  disk w' = disk w ∧ handles w' = handles w ∧ trace w' = trace w ∧
  heap w ⊆ heap w'.

(** The same, with a longer trace. *)
Definition extends (w w' : world) : Prop :=
  disk w' = disk w ∧ handles w' = handles w ∧ heap w ⊆ heap w' ∧
  ∃ evs, trace w' = trace w ++ evs.

(** [m], run in [w], ends in an outcome and a world that satisfy [Q]. *)
Definition wp {A} (m : py A) (w : world) (Q : outcome A → world → Prop) : Prop :=
  Q (m w).1 (m w).2.

End Program.

Arguments marker_size F : clear implicits.
Arguments event F : clear implicits.
Arguments world F : clear implicits.
Arguments py F A : clear implicits.

(** ⌈n / k⌉ on integers, with Python's floor division. *)
Definition ceil_div (n k : Z) : Z := - ((- n) / k).

(** [l'] is every [k]-th element of [l]: ⌈N/k⌉ elements, the [i]-th of
    them the element [i * k] of [l]. *)
Definition every_kth {A} (k : Z) (l l' : list A) : Prop :=
  Z.of_nat (length l') = ceil_div (Z.of_nat (length l)) k ∧
  ∀ i : nat, l' !! i = l !! (i * Z.to_nat k)%nat.

(** The size of a point of mass [v] under the maximum [top], as the
    specification writes it: 0.1 + 4.9 * (v / top). *)
Definition size_formula `{Dtype F} (top v : F) : F :=
  fadd lit_0_1 (fmul lit_4_9 (fdiv v top)).

(** ** Arithmetic laws

    What the bound on the sizes needs of the arithmetic: [fle] orders the
    numbers (everything but NaN), and division by, multiplication with and
    addition to a finite positive constant round monotonically and are
    exact at 0 and 1.  IEEE 754 asks this of every format. *)

Definition fpos `{Dtype F} (c : F) : Prop := fle fzero c ∧ ¬ fle c fzero.

Class MonotoneRounding (F : Type) `{Dtype F} : Prop := {
  fle_ordered (a b : F) : fle a b → fle a a ∧ fle b b;
  fle_trans (a b c : F) : fle a b → fle b c → fle a c;
  fle_total (a b : F) : fle a a → fle b b → fle a b ∨ fle b a;
  fisnan_fle (a : F) : fisnan a = negb (fle a a);
  fdiv_mono (c a b : F) : fisfinite c → fpos c → fle a b → fle (fdiv a c) (fdiv b c);
  fdiv_self (c : F) : fisfinite c → fpos c → fle (fdiv c c) fone;
  fdiv_zero (c : F) : fisfinite c → fpos c → fle fzero (fdiv fzero c);
  fmul_mono (c a b : F) : fisfinite c → fpos c → fle a b → fle (fmul c a) (fmul c b);
  fmul_one (c : F) : fle c c → fle (fmul c fone) c;
  fmul_zero (c : F) : fisfinite c → fpos c → fle fzero (fmul c fzero);
  fadd_mono (c a b : F) : fisfinite c → fle a b → fle (fadd c a) (fadd c b);
  fadd_zero (c : F) : fle c c → fle c (fadd c fzero);
  lit_4_9_finite : fisfinite lit_4_9;
  lit_4_9_pos : fpos lit_4_9;
  lit_0_1_finite : fisfinite lit_0_1;
  lit_0_1_ordered : fle lit_0_1 lit_0_1
}.

(** ** Sample worlds in binary64 *)

(** A scatter call that accepts whatever it is given. *)
Definition accept_all {F} (_ _ _ : ndarray F) (_ : marker_size F) : bool := true.

(** The file of the specification's end-to-end scenario: two particles of
    type 0, one kiloparsec out on the x and on the y axis, no masses. *)
Definition sample_tables : gmap string (ndarray float) :=
  {[ "Coordinates" := Arr2 3 [[3.0857e21; 0; 0]; [0; 3.0857e21; 0]]%float ]}.

Definition sample_file : gmap string (gmap string (ndarray float)) :=
  {[ "PartType0" := sample_tables ]}.

Definition sample_disk : world float :=
  World {[ "single_nebula_1.hdf5" := sample_file ]} ∅ ∅ [].

(** Five particles on a line with their masses (objects 0 to 3), a mass
    array with a negative entry (4), an empty one (5) and one of zeros of
    both signs (6). *)
Definition sample_heap : world float :=
  World ∅ ∅
    {[ 0%nat := Arr1 [1; 2; 3; 4; 5]%float;
       1%nat := Arr1 [10; 20; 30; 40; 50]%float;
       2%nat := Arr1 [0; 0; 0; 0; 0]%float;
       3%nat := Arr1 [2; 4; 8; 4; 2]%float;
       4%nat := Arr1 [-1; 2]%float;
       5%nat := Arr1 [];
       6%nat := Arr1 [0; -0; 0]%float;
       7%nat := Arr1 [2; 4; 8]%float ]}
    [].


(** ** Further observations and sample files *)

(** The sizes the renderer computes from a mass array given by value. *)
Definition sizes_of `{Dtype F} (masses : option (ndarray F)) : outcome (marker_size F) :=
  match masses with
  | None => Returned (SizeScalar lit_0_1)
  | Some a =>
      match np_max a with
      | Raised e => Raised e
      | Returned top =>
          Returned (SizeArray
            (nd_map (fadd lit_0_1)
               (nd_map (fmul lit_4_9) (nd_map (λ v, fdiv v top) a))))
      end
  end.

(** The calls that style the axes, between the scatter call and the save. *)
Definition axes_styling {F} (n : nat) : list (event F) :=
  [EvSetLabel AxisX "X [kpc]"; EvSetLabel AxisY "Y [kpc]";
   EvSetLabel AxisZ "Z [kpc]"; EvSetTitle (plot_title n);
   EvGrid false;
   EvPaneFill AxisX false; EvPaneFill AxisY false; EvPaneFill AxisZ false;
   EvPaneEdgeColor AxisX "w"; EvPaneEdgeColor AxisY "w";
   EvPaneEdgeColor AxisZ "w";
   EvSetBoxAspect 1 1 1; EvViewInit 30 45].

(** A file with a table of four columns and more masses than particles. *)
Definition sample_wide_tables : gmap string (ndarray float) :=
  {[ "Coordinates" := Arr2 4 [[3.0857e21; 0; 0; 7]; [0; 3.0857e21; 0; 7]]%float;
     "Masses" := Arr1 [2; 4; 8]%float ]}.

Definition sample_wide_disk : world float :=
  World {[ "single_nebula_1.hdf5" := {[ "PartType0" := sample_wide_tables ]} ]} ∅ ∅ [].

(** A file whose type-0 group has masses and no coordinates. *)
Definition sample_bare_disk : world float :=
  World {[ "single_nebula_1.hdf5" := {[ "PartType0" := {[ "Masses" := Arr1 [2; 4; 8]%float ]} ]} ]}
        ∅ ∅ [].

(** A formatted count without its separators. *)
Definition strip_commas (s : string) : string :=
  string_of_list_ascii (filter (λ c, c ≠ ","%char) (list_ascii_of_string s)).


(** * Properties *)

(** ** Strided slices *)

Lemma stride_from_lookup {A} (k skip : nat) (l : list A) (i : nat) :
  (1 ≤ k)%nat → stride_from k skip l !! i = l !! (skip + i * k)%nat.
Proof.
  intros Hk. revert skip i.
  induction l as [|a l IH]; intros skip i; [done|].
  destruct skip as [|s]; simpl.
  - destruct i as [|i]; [done|]. simpl. rewrite IH.
    destruct k as [|k]; [lia|]. simpl. f_equal. lia.
  - apply IH.
Qed.

Lemma ceil_div_bounds (n k : Z) :
  0 < k → (ceil_div n k - 1) * k < n ≤ ceil_div n k * k.
Proof.
  intros Hk. unfold ceil_div.
  pose proof (Z.div_mod (- n) k ltac:(lia)) as Hdm.
  pose proof (Z.mod_pos_bound (- n) k Hk) as Hr.
  nia.
Qed.

Lemma ceil_div_unique (n k c : Z) :
  0 < k → (c - 1) * k < n ≤ c * k → c = ceil_div n k.
Proof.
  intros Hk Hc. pose proof (ceil_div_bounds n k Hk) as Hb. nia.
Qed.

Lemma stride_length {A} (k : nat) (l : list A) :
  (1 ≤ k)%nat →
  Z.of_nat (length (stride_from k 0 l)) = ceil_div (Z.of_nat (length l)) (Z.of_nat k).
Proof.
  intros Hk. apply ceil_div_unique; [lia|].
  set (m := length (stride_from k 0 l)).
  split.
  - destruct m as [|m'] eqn:Hm; [lia|].
    assert (is_Some (stride_from k 0 l !! m')) as Hs.
    { apply lookup_lt_is_Some. subst m. lia. }
    rewrite stride_from_lookup in Hs by done.
    apply lookup_lt_is_Some in Hs. nia.
  - destruct (decide (m * k < length l)%nat) as [Hlt|]; [|nia].
    assert (is_Some (stride_from k 0 l !! m)) as Hs.
    { rewrite stride_from_lookup by done. by apply lookup_lt_is_Some. }
    apply lookup_lt_is_Some in Hs. subst m. lia.
Qed.

Lemma every_kth_one {A} (l : list A) : every_kth 1 l l.
Proof.
  split.
  - unfold ceil_div. rewrite Z.div_1_r. lia.
  - intros i. f_equal. lia.
Qed.

(** [l[::k]] for a stride [k ≥ 1] returns every [k]-th element. *)
Lemma py_slice_step_spec {A} (k : Z) (l : list A) :
  1 ≤ k → ∃ l', py_slice_step k l = Returned l' ∧ every_kth k l l'.
Proof.
  intros Hk. exists (stride_from (Z.to_nat k) 0 l). split; [|split].
  - unfold py_slice_step. rewrite decide_False, decide_True by lia. done.
  - rewrite stride_length by lia. f_equal. lia.
  - intros i. rewrite stride_from_lookup by lia. done.
Qed.

(** ** Running computations *)

Section Facts.
Context {F : Type} `{!Dtype F}.
Context (mpl_scatter_ok : ndarray F → ndarray F → ndarray F → marker_size F → bool).
Implicit Types (w : world F) (a : ndarray F).

Lemma bind_run {A B} (m : py F A) (k : A → py F B) w :
  (m ≫= k) w = match m w with
               | (Returned r, w') => k r w'
               | (Raised e, w') => (Raised e, w')
               end.
Proof. done. Qed.

Lemma wp_run {A} (m : py F A) w Q r w' : m w = (r, w') → wp m w Q → Q r w'.
Proof. unfold wp. by intros ->. Qed.

Lemma wp_mono {A} (m : py F A) w (Q Q' : outcome A → world F → Prop) :
  wp m w Q → (∀ r w', Q r w' → Q' r w') → wp m w Q'.
Proof. unfold wp. auto. Qed.

Lemma wp_ret {A} (r : A) w Q : Q (Returned r) w → wp (mret r) w Q.
Proof. done. Qed.

Lemma wp_raise {A} (e : exn) w (Q : outcome A → world F → Prop) :
  Q (Raised e) w → wp (raise e) w Q.
Proof. done. Qed.

Lemma wp_lift {A} (o : outcome A) w Q : Q o w → wp (lift o) w Q.
Proof. done. Qed.

Lemma wp_bind {A B} (m : py F A) (k : A → py F B) w Q :
  wp m w (λ r w', match r with
                  | Returned x => wp (k x) w' Q
                  | Raised e => Q (Raised e) w'
                  end) →
  wp (m ≫= k) w Q.
Proof. unfold wp. rewrite bind_run. by destruct (m w) as [[x|e] w']. Qed.

Lemma wp_alloc a w Q :
  (∀ l, heap w !! l = None →
        Q (Returned l) (World (disk w) (handles w) (<[l:=a]> (heap w)) (trace w))) →
  wp (alloc a) w Q.
Proof. intros HQ. apply HQ, not_elem_of_dom, is_fresh. Qed.

Lemma wp_deref l w Q :
  match heap w !! l with
  | Some a => Q (Returned a) w
  | None => Q (Raised NameError) w
  end →
  wp (deref l) w Q.
Proof. unfold wp, deref. by destruct (heap w !! l). Qed.

Lemma wp_emit ev w Q :
  Q (Returned ()) (World (disk w) (handles w) (heap w) (trace w ++ [ev])) →
  wp (emit ev) w Q.
Proof. done. Qed.

(** A lookup in a heap grown by allocations at distinct places. *)
Ltac heap_lookup :=
  simpl;
  repeat first [rewrite lookup_insert_eq
               |rewrite lookup_insert_ne by congruence];
  done.

(** *** World orderings *)

Lemma allocates_refl w : allocates w w.
Proof. by repeat split. Qed.

Lemma allocates_trans w1 w2 w3 :
  allocates w1 w2 → allocates w2 w3 → allocates w1 w3.
Proof.
  intros (Hd1 & Hh1 & Ht1 & Hs1) (Hd2 & Hh2 & Ht2 & Hs2).
  repeat split; [congruence..|by etrans].
Qed.

Lemma allocates_insert w l a :
  heap w !! l = None →
  allocates w (World (disk w) (handles w) (<[l:=a]> (heap w)) (trace w)).
Proof. intros Hl. repeat split. by apply insert_subseteq. Qed.

Lemma allocates_lookup w w' l a :
  allocates w w' → heap w !! l = Some a → heap w' !! l = Some a.
Proof. intros (_ & _ & _ & Hs) Hl. by eapply lookup_weaken. Qed.

Lemma allocates_extends w w' : allocates w w' → extends w w'.
Proof.
  intros (Hd & Hh & Ht & Hs). repeat split; [done..|].
  exists []. by rewrite app_nil_r.
Qed.

Lemma extends_refl w : extends w w.
Proof. apply allocates_extends, allocates_refl. Qed.

Lemma extends_trans w1 w2 w3 : extends w1 w2 → extends w2 w3 → extends w1 w3.
Proof.
  intros (Hd1 & Hh1 & Hs1 & evs1 & Ht1) (Hd2 & Hh2 & Hs2 & evs2 & Ht2).
  repeat split; [congruence..|by etrans|].
  exists (evs1 ++ evs2). by rewrite Ht2, Ht1, app_assoc.
Qed.

Lemma extends_emit w ev :
  extends w (World (disk w) (handles w) (heap w) (trace w ++ [ev])).
Proof. repeat split; [done|]. by exists [ev]. Qed.

(** *** h5py *)

Lemma wp_with_file {A} path (body : nat → py F A) w Q :
  match disk w !! path with
  | None => Q (Raised (FileNotFoundError path)) w
  | Some _ =>
      ∀ h, handles w !! h = None →
           wp (body h) (World (disk w) (<[h:=path]> (handles w)) (heap w) (trace w))
              (λ r w2, Q r (h5_close h w2))
  end →
  wp (with_file path body) w Q.
Proof.
  unfold wp, with_file, h5_open. destruct (disk w !! path); [|done].
  intros HQ. specialize (HQ _ (not_elem_of_dom_1 _ _ (is_fresh _))).
  by destruct (body _ _).
Qed.

Lemma h5_content_run h w path content :
  handles w !! h = Some path → disk w !! path = Some content →
  h5_content h w = (Returned content, w).
Proof. intros Hh Hd. unfold h5_content. by rewrite Hh, Hd. Qed.

Lemma wp_file_getitem h name w path content Q :
  handles w !! h = Some path → disk w !! path = Some content →
  match content !! name with
  | Some _ => Q (Returned (GroupRef h name)) w
  | None => Q (Raised (KeyError name)) w
  end →
  wp (file_getitem h name) w Q.
Proof.
  intros Hh Hd. unfold wp, file_getitem.
  rewrite bind_run, (h5_content_run _ _ _ _ Hh Hd).
  by destruct (content !! name).
Qed.

Lemma group_tables_run h gname w path content tables :
  handles w !! h = Some path → disk w !! path = Some content →
  content !! gname = Some tables →
  group_tables (GroupRef h gname) w = (Returned tables, w).
Proof.
  intros Hh Hd Hg. unfold group_tables. rewrite bind_run. simpl.
  rewrite (h5_content_run _ _ _ _ Hh Hd). by rewrite Hg.
Qed.

Lemma wp_group_getitem h gname name w path content tables Q :
  handles w !! h = Some path → disk w !! path = Some content →
  content !! gname = Some tables →
  match tables !! name with
  | Some _ => Q (Returned (DatasetRef (GroupRef h gname) name)) w
  | None => Q (Raised (KeyError name)) w
  end →
  wp (group_getitem (GroupRef h gname) name) w Q.
Proof.
  intros Hh Hd Hg. unfold wp, group_getitem.
  rewrite bind_run, (group_tables_run _ _ _ _ _ _ Hh Hd Hg).
  by destruct (tables !! name).
Qed.

Lemma wp_group_contains h gname name w path content tables Q :
  handles w !! h = Some path → disk w !! path = Some content →
  content !! gname = Some tables →
  Q (Returned (bool_decide (is_Some (tables !! name)))) w →
  wp (group_contains (GroupRef h gname) name) w Q.
Proof.
  intros Hh Hd Hg. unfold wp, group_contains.
  by rewrite bind_run, (group_tables_run _ _ _ _ _ _ Hh Hd Hg).
Qed.

Lemma wp_dataset_read h gname name w path content tables a Q :
  handles w !! h = Some path → disk w !! path = Some content →
  content !! gname = Some tables → tables !! name = Some a →
  Q (Returned a) w →
  wp (dataset_read (DatasetRef (GroupRef h gname) name)) w Q.
Proof.
  intros Hh Hd Hg Ht. unfold wp, dataset_read. rewrite bind_run. simpl.
  rewrite (group_tables_run _ _ _ _ _ _ Hh Hd Hg). simpl. by rewrite Ht.
Qed.

Lemma wp_column_obj j a w Q :
  match nd_column j a with
  | Raised e => Q (Raised e) w
  | Returned col =>
      ∀ l, heap w !! l = None →
           Q (Returned l) (World (disk w) (handles w) (<[l:=col]> (heap w)) (trace w))
  end →
  wp (column_obj j a) w Q.
Proof.
  intros HQ. unfold column_obj. apply wp_bind, wp_lift.
  destruct (nd_column j a); [by apply wp_alloc|done].
Qed.

Lemma close_allocates w h path w2 :
  handles w !! h = None →
  allocates (World (disk w) (<[h:=path]> (handles w)) (heap w) (trace w)) w2 →
  allocates w (h5_close h w2).
Proof.
  intros Hh (Hd & Hh2 & Ht & Hs). repeat split; simpl in *; [done| |done..].
  rewrite Hh2. by apply delete_insert_id.
Qed.

(** *** The loader *)

Lemma load_body_spec h filename part_type w content :
  handles w !! h = Some filename → disk w !! filename = Some content →
  wp (group ← file_getitem h ("PartType" +:+ pretty part_type);
      dset ← group_getitem group "Coordinates";
      raw ← dataset_read dset;
      let coords := nd_map (λ v, fdiv v lit_3_0857e21) raw in
      x ← column_obj 0 coords;
      y ← column_obj 1 coords;
      z ← column_obj 2 coords;
      has_masses ← group_contains group "Masses";
      masses ← (if has_masses : bool then
                  dm ← group_getitem group "Masses";
                  m ← dataset_read dm;
                  l ← alloc m;
                  mret (Some l)
                else mret None);
      mret (x, y, z, masses)) w
     (λ r w',
        allocates w w' ∧
        result_arrays (r, w') =
          match snapshot_arrays content part_type with
          | Raised e => Raised e
          | Returned (x, y, z, m) => Returned (Some x, Some y, Some z, Some <$> m)
          end).
Proof.
  intros Hh Hd. unfold snapshot_arrays.
  apply wp_bind. eapply wp_file_getitem; [done..|].
  destruct (content !! _) as [tables|] eqn:Hg; [|by split; [apply allocates_refl|]].
  apply wp_bind. eapply wp_group_getitem; [done..|].
  destruct (tables !! "Coordinates") as [raw|] eqn:Hc; [|by split; [apply allocates_refl|]].
  apply wp_bind. eapply wp_dataset_read; [done..|].
  cbv zeta. set (coords := nd_map _ raw).
  apply wp_bind, wp_column_obj.
  destruct (nd_column 0 coords) as [xa|e]; [|by split; [apply allocates_refl|]].
  intros x Hx.
  apply wp_bind, wp_column_obj.
  destruct (nd_column 1 coords) as [ya|e].
  2:{ split; [by apply allocates_insert|done]. }
  intros y Hy. simpl in Hy. apply lookup_insert_None in Hy as [Hy Hxy].
  apply wp_bind, wp_column_obj.
  destruct (nd_column 2 coords) as [za|e].
  2:{ split; [|done]. repeat split; simpl.
      repeat (apply insert_subseteq_r; [done|]). done. }
  intros z Hz. simpl in Hz.
  apply lookup_insert_None in Hz as [Hz Hyz].
  apply lookup_insert_None in Hz as [Hz Hxz].
  apply wp_bind. eapply wp_group_contains; [done..|].
  destruct (tables !! "Masses") as [ma|] eqn:Hm.
  - rewrite bool_decide_true by done.
    apply wp_bind, wp_bind. eapply wp_group_getitem; [done..|]. rewrite Hm.
    apply wp_bind. eapply wp_dataset_read; [done..|].
    apply wp_bind, wp_alloc. intros m Hma. simpl in Hma.
    apply lookup_insert_None in Hma as [Hma Hzm].
    apply lookup_insert_None in Hma as [Hma Hym].
    apply lookup_insert_None in Hma as [Hma Hxm].
    apply wp_ret, wp_ret. split.
    + repeat split; simpl. repeat (apply insert_subseteq_r; [done|]). done.
    + unfold result_arrays. simpl. repeat f_equal; heap_lookup.
  - rewrite bool_decide_false by (by intros []).
    apply wp_bind, wp_ret, wp_ret. split.
    + repeat split; simpl. repeat (apply insert_subseteq_r; [done|]). done.
    + unfold result_arrays. simpl. repeat f_equal; heap_lookup.
Qed.

(** The loader, in one statement: it leaves the world as it found it but for
    new array objects, and what it hands back is read off the file. *)
Lemma load_particle_data_spec filename part_type w :
  wp (load_particle_data filename part_type) w
     (λ r w',
        allocates w w' ∧
        result_arrays (r, w') =
          match disk w !! filename with
          | None => Raised (FileNotFoundError filename)
          | Some content =>
              match snapshot_arrays content part_type with
              | Raised e => Raised e
              | Returned (x, y, z, m) => Returned (Some x, Some y, Some z, Some <$> m)
              end
          end).
Proof.
  unfold load_particle_data. apply wp_with_file.
  destruct (disk w !! filename) as [content|] eqn:Hd;
    [|by split; [apply allocates_refl|]].
  intros h Hh. eapply wp_mono.
  { apply (load_body_spec h filename part_type _ content); simpl;
      [apply lookup_insert_eq|done]. }
  intros r w2 [Ha Hr]. split; [by eapply close_allocates|done].
Qed.

Lemma nd_column_map_table (f : F → F) (j ncols : nat) (rows : list (list F)) :
  (j < ncols)%nat → Forall (λ r, length r = ncols) rows →
  ∃ col, nd_column j (nd_map f (Arr2 ncols rows)) = Returned (Arr1 col) ∧
         length col = length rows ∧
         ∀ (i : nat) r, rows !! i = Some r → col !! i = f <$> r !! j.
Proof.
  intros Hj Hwf. simpl. rewrite decide_True by done.
  destruct (mapM_is_Some_2 (λ r : list F, r !! j)
              (fmap (M:=list) (fmap (M:=list) f) rows)) as [col Hcol].
  { apply Forall_fmap. eapply Forall_impl; [exact Hwf|].
    intros r Hr. simpl. apply lookup_lt_is_Some. rewrite length_fmap.
    rewrite Hr. exact Hj. }
  rewrite Hcol. exists col. apply mapM_Some in Hcol. split; [done|]. split.
  - apply Forall2_length in Hcol. by rewrite length_fmap in Hcol.
  - intros i r Hr.
    assert (fmap (M:=list) (fmap (M:=list) f) rows !! i = Some (f <$> r)) as Hi
      by (by rewrite list_lookup_fmap, Hr).
    destruct (Forall2_lookup_l _ _ _ _ _ Hcol Hi) as (v & -> & Hv).
    by rewrite list_lookup_fmap in Hv.
Qed.

Lemma load_particle_data_table filename part_type w content tables raw :
  disk w !! filename = Some content →
  content !! ("PartType" +:+ pretty part_type) = Some tables →
  tables !! "Coordinates" = Some (Arr2 3 raw) →
  nd_wf (Arr2 3 raw) →
  ∃ x y z masses w' xs ys zs,
    load_particle_data filename part_type w = (Returned (x, y, z, masses), w') ∧
    (λ m, heap w' !! m) <$> masses = Some <$> tables !! "Masses" ∧
    heap w' !! x = Some (Arr1 xs) ∧
    heap w' !! y = Some (Arr1 ys) ∧
    heap w' !! z = Some (Arr1 zs) ∧
    length xs = length raw ∧ length ys = length raw ∧ length zs = length raw ∧
    ∀ i : nat, (i < length raw)%nat →
      ∃ c0 c1 c2, raw !! i = Some [c0; c1; c2] ∧
                  xs !! i = Some (fdiv c0 lit_3_0857e21) ∧
                  ys !! i = Some (fdiv c1 lit_3_0857e21) ∧
                  zs !! i = Some (fdiv c2 lit_3_0857e21).
Proof.
  intros Hd Hg Hc Hwf. simpl in Hwf.
  pose proof (load_particle_data_spec filename part_type w) as Hspec.
  unfold wp in Hspec.
  destruct (load_particle_data filename part_type w) as [r w'] eqn:Hrun.
  destruct Hspec as [_ Hr]. simpl in Hr.
  rewrite Hd in Hr. unfold snapshot_arrays in Hr. rewrite Hg, Hc in Hr.
  cbv zeta in Hr.
  destruct (nd_column_map_table (λ v, fdiv v lit_3_0857e21) 0 3 raw)
    as (xs & Hx & Hlx & Hix); [lia|done|].
  destruct (nd_column_map_table (λ v, fdiv v lit_3_0857e21) 1 3 raw)
    as (ys & Hy & Hly & Hiy); [lia|done|].
  destruct (nd_column_map_table (λ v, fdiv v lit_3_0857e21) 2 3 raw)
    as (zs & Hz & Hlz & Hiz); [lia|done|].
  rewrite Hx, Hy, Hz in Hr. unfold result_arrays in Hr. simpl in Hr.
  destruct r as [[[[x y] z] masses]|e]; [|done].
  injection Hr as Hhx Hhy Hhz Hhm.
  exists x, y, z, masses, w', xs, ys, zs. repeat split; [done..|].
  intros i Hi. apply lookup_lt_is_Some in Hi as [row Hrow].
  pose proof (Forall_lookup_1 _ _ _ _ Hwf Hrow) as Hlen.
  destruct row as [|c0 [|c1 [|c2 [|]]]]; try done.
  exists c0, c1, c2. split; [done|].
  by rewrite (Hix _ _ Hrow), (Hiy _ _ Hrow), (Hiz _ _ Hrow).
Qed.

(** C1: on a file whose group [PartType<part_type>] holds an N×3
    [Coordinates] table [raw], [load_particle_data] returns, and the arrays
    x, y, z it returns have N elements each, with [x[i] = raw[i][0] /
    3.0857e21], [y[i] = raw[i][1] / 3.0857e21] and [z[i] = raw[i][2] /
    3.0857e21] for every i < N. *)
Theorem load_particle_data_coordinates filename part_type w content tables raw :
  disk w !! filename = Some content →
  content !! ("PartType" +:+ pretty part_type) = Some tables →
  tables !! "Coordinates" = Some (Arr2 3 raw) →
  nd_wf (Arr2 3 raw) →
  ∃ x y z masses w' xs ys zs,
    load_particle_data filename part_type w = (Returned (x, y, z, masses), w') ∧
    heap w' !! x = Some (Arr1 xs) ∧
    heap w' !! y = Some (Arr1 ys) ∧
    heap w' !! z = Some (Arr1 zs) ∧
    length xs = length raw ∧ length ys = length raw ∧ length zs = length raw ∧
    ∀ i : nat, (i < length raw)%nat →
      ∃ c0 c1 c2, raw !! i = Some [c0; c1; c2] ∧
                  xs !! i = Some (fdiv c0 lit_3_0857e21) ∧
                  ys !! i = Some (fdiv c1 lit_3_0857e21) ∧
                  zs !! i = Some (fdiv c2 lit_3_0857e21).
Proof.
  intros Hd Hg Hc Hwf.
  destruct (load_particle_data_table _ _ _ _ _ _ Hd Hg Hc Hwf)
    as (x & y & z & masses & w' & xs & ys & zs & Hrun & _ & H').
  by exists x, y, z, masses, w', xs, ys, zs.
Qed.

(** C5: loading is a function of the file alone and leaves it alone.  Two
    successive calls on a file hand back the same outcome, array for array,
    and so does a call in any other world with the same files; the files
    on disk are the same after each call as before. *)
Theorem load_particle_data_deterministic_read_only filename part_type w :
  let rw1 := load_particle_data filename part_type w in
  let rw2 := load_particle_data filename part_type rw1.2 in
  disk rw1.2 = disk w ∧ disk rw2.2 = disk w ∧
  result_arrays rw2 = result_arrays rw1 ∧
  ∀ w0, disk w0 = disk w →
        result_arrays (load_particle_data filename part_type w0) = result_arrays rw1.
Proof.
  intros rw1 rw2.
  assert (∀ w0, disk w0 = disk w →
    disk (load_particle_data filename part_type w0).2 = disk w ∧
    result_arrays (load_particle_data filename part_type w0) = result_arrays rw1)
    as Hany.
  { intros w0 Hw0.
    pose proof (load_particle_data_spec filename part_type w0) as [Ha0 Hr0].
    pose proof (load_particle_data_spec filename part_type w) as [_ Hr].
    destruct Ha0 as (Hd0 & _). split; [congruence|].
    rewrite <- surjective_pairing in Hr0, Hr.
    subst rw1. rewrite Hr0, Hr. by rewrite Hw0. }
  destruct (Hany w eq_refl) as [Hd1 _].
  destruct (Hany rw1.2 Hd1) as [Hd2 Hr2].
  repeat split; [done..|]. intros w0 Hw0. by apply Hany.
Qed.

(** C8: whatever the outcome of [load_particle_data] — a return, a missing
    file, group or table, or any other exception — the handles open when
    the call exits are those open when it started; the handle the call
    opens is not among them. *)
Theorem load_particle_data_closes_file filename part_type w :
  let rw := load_particle_data filename part_type w in
  handles rw.2 = handles w ∧ fresh (dom (handles w)) ∉ dom (handles rw.2).
Proof.
  intros rw.
  pose proof (load_particle_data_spec filename part_type w) as [(_ & Hh & _) _].
  fold rw in Hh. split; [done|]. rewrite Hh. apply is_fresh.
Qed.

(** *** The renderer's steps *)

Lemma wp_bind_eqn {A B} (m : py F A) (k : A → py F B) w Q :
  (∀ r w', m w = (r, w') →
           match r with
           | Returned x => wp (k x) w' Q
           | Raised e => Q (Raised e) w'
           end) →
  wp (m ≫= k) w Q.
Proof.
  intros HQ. apply wp_bind. unfold wp at 1.
  apply HQ, surjective_pairing.
Qed.

Lemma allocates_bind {A B} (m : py F A) (k : A → py F B) w :
  wp m w (λ _ w', allocates w w') →
  (∀ x w', wp (k x) w' (λ _ w'', allocates w' w'')) →
  wp (m ≫= k) w (λ _ w'', allocates w w'').
Proof.
  intros Hm Hk. apply wp_bind. eapply wp_mono; [exact Hm|].
  intros [x|e] w' Hw'; [|done].
  eapply wp_mono; [apply Hk|]. intros ? w''. by apply allocates_trans.
Qed.

Lemma wp_slice_obj k l w Q :
  match heap w !! l with
  | None => Q (Raised NameError) w
  | Some a =>
      match nd_slice_step k a with
      | Raised e => Q (Raised e) w
      | Returned a' =>
          ∀ l', heap w !! l' = None →
                Q (Returned l') (World (disk w) (handles w) (<[l':=a']> (heap w)) (trace w))
      end
  end →
  wp (slice_obj k l) w Q.
Proof.
  intros HQ. unfold slice_obj. apply wp_bind, wp_deref.
  destruct (heap w !! l) as [a|]; [|done].
  apply wp_bind, wp_lift.
  destruct (nd_slice_step k a); [by apply wp_alloc|done].
Qed.

Lemma slice_obj_allocates k l w :
  wp (slice_obj k l) w (λ _ w', allocates w w').
Proof.
  apply wp_slice_obj. destruct (heap w !! l) as [a|]; [|apply allocates_refl].
  destruct (nd_slice_step k a); [|apply allocates_refl].
  intros l' Hl'. by apply allocates_insert.
Qed.

Lemma apply_subsampling_allocates x y z masses k w :
  wp (apply_subsampling x y z masses k) w (λ _ w', allocates w w').
Proof.
  unfold apply_subsampling. destruct (decide (1 < k)); [|apply allocates_refl].
  apply allocates_bind; [apply slice_obj_allocates|]. intros x' w1.
  apply allocates_bind; [apply slice_obj_allocates|]. intros y' w2.
  apply allocates_bind; [apply slice_obj_allocates|]. intros z' w3.
  apply allocates_bind; [|intros; apply allocates_refl].
  destruct masses as [m|]; [|apply allocates_refl].
  apply allocates_bind; [apply slice_obj_allocates|].
  intros; apply allocates_refl.
Qed.

(** Below a stride of 2 the block is skipped. *)
Lemma apply_subsampling_skip x y z masses k w :
  k ≤ 1 → apply_subsampling x y z masses k w = (Returned (x, y, z, masses), w).
Proof. intros Hk. unfold apply_subsampling. by rewrite decide_False by lia. Qed.

Lemma point_sizes_run masses w :
  point_sizes masses w =
    (match masses with
     | None => Returned (SizeScalar lit_0_1)
     | Some m =>
         match heap w !! m with
         | None => Raised NameError
         | Some a =>
             match np_max a with
             | Raised e => Raised e
             | Returned top =>
                 Returned (SizeArray
                   (nd_map (fadd lit_0_1)
                      (nd_map (fmul lit_4_9) (nd_map (λ v, fdiv v top) a))))
             end
         end
     end, w).
Proof.
  destruct masses as [m|]; [|done].
  unfold point_sizes, deref. rewrite bind_run.
  destruct (heap w !! m) as [a|]; [|done].
  rewrite bind_run. unfold lift. by destruct (np_max a).
Qed.

Lemma scatter_run x y z s w :
  scatter mpl_scatter_ok x y z s w =
    match heap w !! x, heap w !! y, heap w !! z with
    | Some xa, Some ya, Some za =>
        if mpl_scatter_ok xa ya za s
        then (Returned (),
              World (disk w) (handles w) (heap w) (trace w ++ [EvScatter xa ya za s]))
        else (Raised ValueError, w)
    | _, _, _ => (Raised NameError, w)
    end.
Proof.
  unfold scatter, deref. rewrite bind_run.
  destruct (heap w !! x) as [xa|]; [|done]. rewrite bind_run.
  destruct (heap w !! y) as [ya|]; [|done]. rewrite bind_run.
  destruct (heap w !! z) as [za|]; [|done].
  by destruct (mpl_scatter_ok xa ya za s).
Qed.

(** *** The renderer as a whole *)

(** A call that returns has gone through the subsampling block, the size
    computation and one accepted scatter call, and has made exactly the
    plotting calls listed, in this order; a call that raises has done so
    before or in the scatter call and has only opened the figure. *)
Lemma plot_3d_particles_run x y z masses k w :
  wp (plot_3d_particles mpl_scatter_ok x y z masses k) w
     (λ r w',
        extends w w' ∧
        match r with
        | Returned _ =>
            ∃ x' y' z' m' w1 s xa ya za,
              apply_subsampling x y z masses k
                (World (disk w) (handles w) (heap w)
                       ((trace w ++ [EvFigure 10 8]) ++ [EvAddSubplot3d]))
              = (Returned (x', y', z', m'), w1) ∧
              point_sizes m' w1 = (Returned s, w1) ∧
              heap w1 !! x' = Some xa ∧
              heap w1 !! y' = Some ya ∧
              heap w1 !! z' = Some za ∧
              mpl_scatter_ok xa ya za s = true ∧
              trace w' = trace w ++
                [EvFigure 10 8; EvAddSubplot3d; EvScatter xa ya za s;
                 EvSetLabel AxisX "X [kpc]"; EvSetLabel AxisY "Y [kpc]";
                 EvSetLabel AxisZ "Z [kpc]"; EvSetTitle (plot_title (nd_len xa));
                 EvGrid false;
                 EvPaneFill AxisX false; EvPaneFill AxisY false;
                 EvPaneFill AxisZ false;
                 EvPaneEdgeColor AxisX "w"; EvPaneEdgeColor AxisY "w";
                 EvPaneEdgeColor AxisZ "w";
                 EvSetBoxAspect 1 1 1; EvViewInit 30 45;
                 EvSaveFig "single_nebula_1.png"; EvTightLayout; EvShow]
        | Raised _ => trace w' = trace w ++ [EvFigure 10 8; EvAddSubplot3d]
        end).
Proof.
  unfold plot_3d_particles.
  apply wp_bind, wp_emit. apply wp_bind, wp_emit. simpl.
  apply wp_bind_eqn. intros r1 w1 H1.
  pose proof (wp_run _ _ _ _ _ H1 (apply_subsampling_allocates _ _ _ _ _ _))
    as (Hd1 & Hh1 & Ht1 & Hs1). simpl in Hd1, Hh1, Ht1, Hs1.
  assert (extends w w1) as Hext1.
  { repeat split; [done..|]. eexists. by rewrite Ht1, <- app_assoc. }
  destruct r1 as [[[[x' y'] z'] m']|e].
  2:{ split; [done|]. by rewrite Ht1, <- app_assoc. }
  apply wp_bind_eqn. intros r2 w2 H2.
  pose proof H2 as H2'. rewrite point_sizes_run in H2'.
  injection H2' as Hr2 <-.
  destruct r2 as [s|e].
  2:{ split; [done|]. by rewrite Ht1, <- app_assoc. }
  apply wp_bind_eqn. intros r3 w3 H3. rewrite scatter_run in H3.
  destruct (heap w1 !! x') as [xa|] eqn:Hx.
  2:{ injection H3 as <- <-. split; [done|]. by rewrite Ht1, <- app_assoc. }
  destruct (heap w1 !! y') as [ya|] eqn:Hy.
  2:{ injection H3 as <- <-. split; [done|]. by rewrite Ht1, <- app_assoc. }
  destruct (heap w1 !! z') as [za|] eqn:Hz.
  2:{ injection H3 as <- <-. split; [done|]. by rewrite Ht1, <- app_assoc. }
  destruct (mpl_scatter_ok xa ya za s) eqn:Hok.
  2:{ injection H3 as <- <-. split; [done|]. by rewrite Ht1, <- app_assoc. }
  injection H3 as <- <-.
  do 3 (apply wp_bind, wp_emit; simpl).
  apply wp_bind. unfold len_obj. apply wp_bind, wp_deref. simpl. rewrite Hx.
  apply wp_ret.
  do 12 (apply wp_bind, wp_emit; simpl).
  apply wp_emit. simpl.
  split.
  - repeat split; [done..|]. eexists. rewrite Ht1, <- !app_assoc. done.
  - exists x', y', z', m', w1, s, xa, ya, za. repeat split; [done..|].
    rewrite Ht1, <- !app_assoc. done.
Qed.


(** C9: every array object of the caller's world, its x, y, z and masses
    among them, holds after a call of [plot_3d_particles] what it held
    before, whatever the arguments and the outcome. *)
Theorem plot_3d_particles_preserves_arrays x y z masses k w l a :
  heap w !! l = Some a →
  heap (plot_3d_particles mpl_scatter_ok x y z masses k w).2 !! l = Some a.
Proof.
  intros Hl.
  pose proof (plot_3d_particles_run x y z masses k w) as [(_ & _ & Hs & _) _].
  by eapply lookup_weaken.
Qed.


(** *** Subsampling *)

Lemma wp_elim {A} (m : py F A) w Q : wp m w Q → ∃ r w', m w = (r, w') ∧ Q r w'.
Proof. intros HQ. exists (m w).1, (m w).2. split; [apply surjective_pairing|done]. Qed.

Lemma slice_obj_stride k l w v Q :
  1 ≤ k → heap w !! l = Some (Arr1 v) →
  (∀ l' v', heap w !! l' = None → every_kth k v v' →
            Q (Returned l')
              (World (disk w) (handles w) (<[l':=Arr1 v']> (heap w)) (trace w))) →
  wp (slice_obj k l) w Q.
Proof.
  intros Hk Hl HQ. apply wp_slice_obj. rewrite Hl. simpl.
  destruct (py_slice_step_spec k v Hk) as (v' & -> & Hv').
  intros l' Hl'. by apply HQ.
Qed.

(** C2, amended: for a stride [k ≥ 1] the subsampling block returns, and
    leaves x, y, z and (when present) masses as every [k]-th element of
    what they were: ⌈N/k⌉ elements each, those at the indices 0, k, 2k, ...
    of the input. *)
Theorem apply_subsampling_stride x y z masses k w xs ys zs oms :
  1 ≤ k →
  heap w !! x = Some (Arr1 xs) →
  heap w !! y = Some (Arr1 ys) →
  heap w !! z = Some (Arr1 zs) →
  masses_are w masses oms →
  ∃ x' y' z' masses' w' xs' ys' zs' oms',
    apply_subsampling x y z masses k w = (Returned (x', y', z', masses'), w') ∧
    heap w' !! x' = Some (Arr1 xs') ∧
    heap w' !! y' = Some (Arr1 ys') ∧
    heap w' !! z' = Some (Arr1 zs') ∧
    masses_are w' masses' oms' ∧
    every_kth k xs xs' ∧ every_kth k ys ys' ∧ every_kth k zs zs' ∧
    option_Forall2 (every_kth k) oms oms'.
Proof.
  intros Hk Hx Hy Hz Hm.
  destruct (decide (k = 1)) as [->|Hk1].
  { exists x, y, z, masses, w, xs, ys, zs, oms.
    rewrite apply_subsampling_skip by lia.
    do 5 (split; [done|]). do 3 (split; [apply every_kth_one|]).
    destruct oms; constructor. apply every_kth_one. }
  cut (wp (apply_subsampling x y z masses k) w (λ r w',
    ∃ x' y' z' masses' xs' ys' zs' oms',
      r = Returned (x', y', z', masses') ∧
      heap w' !! x' = Some (Arr1 xs') ∧
      heap w' !! y' = Some (Arr1 ys') ∧
      heap w' !! z' = Some (Arr1 zs') ∧
      masses_are w' masses' oms' ∧
      every_kth k xs xs' ∧ every_kth k ys ys' ∧ every_kth k zs zs' ∧
      option_Forall2 (every_kth k) oms oms')).
  { intros Hwp. apply wp_elim in Hwp
      as (r & w' & Hrun & x' & y' & z' & masses' & xs' & ys' & zs' & oms' & -> & H').
    by exists x', y', z', masses', w', xs', ys', zs', oms'. }
  unfold apply_subsampling. rewrite decide_True by lia.
  apply wp_bind. eapply slice_obj_stride; [done..|].
  intros x' xs' Hx' Hkx.
  apply wp_bind. eapply slice_obj_stride; [done| |].
  { simpl. rewrite lookup_insert_ne by congruence. done. }
  intros y' ys' Hy' Hky. simpl in Hy'.
  apply lookup_insert_None in Hy' as [Hy' Hxy].
  apply wp_bind. eapply slice_obj_stride; [done| |].
  { simpl. rewrite !lookup_insert_ne by congruence. done. }
  intros z' zs' Hz' Hkz. simpl in Hz'.
  apply lookup_insert_None in Hz' as [Hz' Hyz].
  apply lookup_insert_None in Hz' as [Hz' Hxz].
  apply wp_bind.
  destruct masses as [m|], oms as [ms|]; try done; simpl in Hm.
  - apply wp_bind. eapply slice_obj_stride; [done| |].
    { simpl. rewrite !lookup_insert_ne by congruence. done. }
    intros m' ms' Hm' Hkm. simpl in Hm'.
    apply lookup_insert_None in Hm' as [Hm' Hzm].
    apply lookup_insert_None in Hm' as [Hm' Hym].
    apply lookup_insert_None in Hm' as [Hm' Hxm].
    apply wp_ret, wp_ret.
    exists x', y', z', (Some m'), xs', ys', zs', (Some ms').
    split; [done|]. do 4 (split; [heap_lookup|]).
    do 3 (split; [done|]). by constructor.
  - apply wp_ret, wp_ret.
    exists x', y', z', None, xs', ys', zs', None.
    split; [done|]. do 3 (split; [heap_lookup|]).
    split; [done|]. do 3 (split; [done|]). constructor.
Qed.

(** *** Absent masses *)

Lemma load_particle_data_no_masses filename part_type w content tables r w' :
  disk w !! filename = Some content →
  content !! ("PartType" +:+ pretty part_type) = Some tables →
  tables !! "Masses" = None →
  load_particle_data filename part_type w = (Returned r, w') →
  r.2 = None.
Proof.
  intros Hd Hg Hm Hrun.
  pose proof (wp_run _ _ _ _ _ Hrun (load_particle_data_spec filename part_type w))
    as [_ Hr].
  rewrite Hd in Hr. unfold snapshot_arrays in Hr. rewrite Hg, Hm in Hr.
  destruct r as [[[x y] z] masses]. unfold result_arrays in Hr. simpl in Hr.
  repeat case_match; try done.
  simplify_eq. by destruct masses.
Qed.

Lemma apply_subsampling_no_masses x y z k w :
  wp (apply_subsampling x y z None k) w
     (λ r _, match r with Returned r' => r'.2 = None | Raised _ => True end).
Proof.
  unfold apply_subsampling. destruct (decide (1 < k)); [|done].
  do 3 (apply wp_bind_eqn; intros [?|?] ? _; [|done]).
  by apply wp_bind, wp_ret, wp_ret.
Qed.

(** C4: on a file whose particle group has no [Masses] table the loader
    returns [None] for masses whenever it returns, and it does return when
    the group holds an N×3 [Coordinates] table; the renderer, given [None]
    for masses, computes the one size 0.1 and hands it to its scatter call,
    for all points alike. *)
Theorem missing_masses_constant_size filename part_type w content tables :
  disk w !! filename = Some content →
  content !! ("PartType" +:+ pretty part_type) = Some tables →
  tables !! "Masses" = None →
  (∀ x y z masses w',
     load_particle_data filename part_type w = (Returned (x, y, z, masses), w') →
     masses = None) ∧
  (∀ raw, tables !! "Coordinates" = Some (Arr2 3 raw) → nd_wf (Arr2 3 raw) →
          ∃ x y z w',
            load_particle_data filename part_type w = (Returned (x, y, z, None), w')) ∧
  (∀ x y z k w2,
     point_sizes None w2 = (Returned (SizeScalar lit_0_1), w2) ∧
     let rw := plot_3d_particles mpl_scatter_ok x y z None k w2 in
     (rw.1 = Returned () →
      ∃ xa ya za,
        scatter_calls (trace rw.2)
        = scatter_calls (trace w2) ++ [(xa, ya, za, SizeScalar lit_0_1)])).
Proof.
  intros Hd Hg Hm. split; [|split].
  - intros x y z masses w' Hrun.
    apply (load_particle_data_no_masses _ _ _ _ _ _ _ Hd Hg Hm Hrun).
  - intros raw Hc Hwf.
    destruct (load_particle_data_table _ _ _ _ _ _ Hd Hg Hc Hwf)
      as (x & y & z & masses & w' & xs & ys & zs & Hrun & _).
    exists x, y, z, w'.
    by rewrite <- (load_particle_data_no_masses _ _ _ _ _ _ _ Hd Hg Hm Hrun).
  - intros x y z k w2. split; [apply point_sizes_run|].
    intros rw Hret.
    pose proof (plot_3d_particles_run x y z None k w2) as [_ Hrun].
    fold rw in Hrun. rewrite Hret in Hrun.
    destruct Hrun as (x' & y' & z' & m' & w1 & s & xa & ya & za
                      & Hsub & Hs & _ & _ & _ & _ & Ht).
    pose proof (wp_run _ _ _ _ _ Hsub (apply_subsampling_no_masses _ _ _ _ _)) as Hm'.
    simpl in Hm'. subst m'. rewrite point_sizes_run in Hs. injection Hs as <-.
    exists xa, ya, za. rewrite Ht. unfold scatter_calls.
    rewrite omap_app. done.
Qed.

End Facts.

(** ** The point sizes *)

Section Sizes.
Context {F : Type} `{MonotoneRounding F}.





End Sizes.

(** Exact arithmetic rounds nowhere, hence monotonically. *)

Lemma Qle_bool_Is_true (a b : Q) : Is_true (Qle_bool a b) ↔ (a <= b)%Q.
Proof. rewrite Is_true_true. apply Qle_bool_iff. Qed.

Lemma fpos_exactQ (c : Q) : fpos c → (0 < c)%Q.
Proof.
  intros [_ Hn]. apply Qnot_le_lt. intros Hle. apply Hn.
  by apply Qle_bool_Is_true.
Qed.

#[export] Instance exactQ_monotone : MonotoneRounding Q.
Proof.
  split; cbn -[Qle_bool Qmult Qplus Qdiv].
  - intros a b _. split; apply Qle_bool_Is_true, Qle_refl.
  - intros a b c. rewrite !Qle_bool_Is_true. apply Qle_trans.
  - intros a b _ _. rewrite !Qle_bool_Is_true.
    destruct (Qlt_le_dec a b); [left; by apply Qlt_le_weak|by right].
  - intros a. symmetry. apply negb_false_iff, Qle_bool_iff, Qle_refl.
  - intros c a b _ Hc%fpos_exactQ. rewrite !Qle_bool_Is_true. intros Hab.
    apply Qmult_le_compat_r; [done|]. apply Qinv_le_0_compat. by apply Qlt_le_weak.
  - intros c _ Hc%fpos_exactQ. apply Qle_bool_Is_true.
    unfold Qdiv. rewrite Qmult_inv_r; [apply Qle_refl|].
    intros Hc0. rewrite Hc0 in Hc. by apply Qlt_irrefl in Hc.
  - intros c _ _. apply Qle_bool_Is_true. unfold Qdiv. rewrite Qmult_0_l. apply Qle_refl.
  - intros c a b _ Hc%fpos_exactQ. rewrite !Qle_bool_Is_true. intros Hab.
    by apply Qmult_le_l.
  - intros c _. apply Qle_bool_Is_true. rewrite Qmult_1_r. apply Qle_refl.
  - intros c _ _. apply Qle_bool_Is_true. rewrite Qmult_0_r. apply Qle_refl.
  - intros c a b _. rewrite !Qle_bool_Is_true. intros Hab. by apply Qplus_le_r.
  - intros c _. apply Qle_bool_Is_true. rewrite Qplus_0_r. apply Qle_refl.
  - done.
  - split; vm_compute; [done|by intros []].
  - done.
  - by vm_compute.
Qed.

(** The miniature format rounds monotonically: its operations stay within
    its 43 values, and each law holds on all of them. *)

Ltac exhaust :=
  match goal with
  | |- ?P => apply (bool_decide_unpack P); vm_compute; exact I
  end.

Lemma tiny_values_count : length tiny_values = 43%nat.
Proof. reflexivity. Qed.

Lemma tiny_decode_inj (a b : tiny) : tiny_decode a = tiny_decode b → a = b.
Proof. revert a b. exhaust. Qed.

Lemma tiny_closed (a b : tiny) :
  tiny_decode (fadd a b) = SFadd tiny_prec tiny_emax (tiny_decode a) (tiny_decode b) ∧
  tiny_decode (fmul a b) = SFmul tiny_prec tiny_emax (tiny_decode a) (tiny_decode b) ∧
  tiny_decode (fdiv a b) = SFdiv tiny_prec tiny_emax (tiny_decode a) (tiny_decode b).
Proof. revert a b. exhaust. Qed.

#[export] Instance tiny_monotone : MonotoneRounding tiny.
Proof. split; unfold fpos; exhaust. Qed.

(** In the miniature format 0.1 reads 0.125 and 4.9 reads 5; the masses
    1, 2, 4 get the sizes 1.5, 2.5 and 5. *)
Example tiny_sizes :
  tiny_decode lit_0_1 = S754_finite false 1 (-3) ∧
  tiny_decode lit_4_9 = S754_finite false 5 0 ∧
  np_max (Arr1 [tiny_of_Z 1; tiny_of_Z 2; tiny_of_Z 4]) = Returned (tiny_of_Z 4) ∧
  map (λ v, tiny_decode (size_formula (tiny_of_Z 4) v))
      [tiny_of_Z 1; tiny_of_Z 2; tiny_of_Z 4]
  = [S754_finite false 6 (-2); S754_finite false 5 (-1); S754_finite false 5 0].
Proof. split_and!; vm_compute; reflexivity. Qed.


(** ** Masses that are all zero, in binary64 *)

Lemma np_maximum_zeros (a b : float) :
  a = 0%float ∨ a = (-0)%float → b = 0%float ∨ b = (-0)%float →
  np_maximum a b = 0%float ∨ np_maximum a b = (-0)%float.
Proof. intros [-> | ->] [-> | ->]; vm_compute; auto. Qed.

Lemma foldl_np_maximum_zeros (acc : float) (vs : list float) :
  acc = 0%float ∨ acc = (-0)%float →
  Forall (λ v, v = 0%float ∨ v = (-0)%float) vs →
  foldl np_maximum acc vs = 0%float ∨ foldl np_maximum acc vs = (-0)%float.
Proof.
  intros Hacc Hvs. revert acc Hacc.
  induction Hvs as [|v vs Hv Hvs IH]; intros acc Hacc; [done|].
  simpl. by apply IH, np_maximum_zeros.
Qed.

Lemma size_formula_zeros (top v : float) :
  top = 0%float ∨ top = (-0)%float → v = 0%float ∨ v = (-0)%float →
  size_formula top v = nan.
Proof. by intros [-> | ->] [-> | ->]. Qed.

Lemma zero_masses_sizes (top : float) (ms : list float) :
  top = 0%float ∨ top = (-0)%float →
  Forall (λ v, v = 0%float ∨ v = (-0)%float) ms →
  nd_map (fadd lit_0_1) (nd_map (fmul lit_4_9) (nd_map (λ v, fdiv v top) (Arr1 ms)))
  = Arr1 (replicate (length ms) nan).
Proof.
  intros Htop Hz. simpl. f_equal.
  induction Hz as [|u us Hu Hus IH]; [done|].
  simpl. f_equal; [|exact IH]. exact (size_formula_zeros _ _ Htop Hu).
Qed.

(** C7, amended: if the mass array is not empty and every element of it is
    zero (of either sign), its maximum is a zero, the size computation
    divides by it, and it returns — it does not raise — a size array with
    NaN for every point. *)
Theorem zero_masses_nan_sizes (w : world float) (m : nat) (ms : list float) :
  heap w !! m = Some (Arr1 ms) →
  ms ≠ [] →
  Forall (λ v, v = 0%float ∨ v = (-0)%float) ms →
  ∃ top, np_max (Arr1 ms) = Returned top ∧
         (top = 0%float ∨ top = (-0)%float) ∧
         point_sizes (Some m) w
         = (Returned (SizeArray (Arr1 (replicate (length ms) nan))), w).
Proof.
  intros Hm Hne Hz.
  destruct ms as [|v vs]; [done|].
  pose proof Hz as Hz'. apply Forall_cons in Hz' as [Hv Hvs].
  pose proof (foldl_np_maximum_zeros v vs Hv Hvs) as Htop.
  exists (foldl np_maximum v vs). split; [done|]. split; [done|].
  rewrite point_sizes_run, Hm.
  change (np_max (Arr1 (v :: vs))) with (Returned (foldl np_maximum v vs)).
  do 3 f_equal. by apply zero_masses_sizes.
Qed.

(** ** The claims at sample inputs *)

(** C1 on the sample file: the two particles come back at 1 kpc. *)
Lemma load_particle_data_coordinates_witness :
  ∃ x y z masses w' xs ys zs,
    load_particle_data "single_nebula_1.hdf5" 0 sample_disk
    = (Returned (x, y, z, masses), w') ∧
    heap w' !! x = Some (Arr1 xs) ∧
    heap w' !! y = Some (Arr1 ys) ∧
    heap w' !! z = Some (Arr1 zs) ∧
    length xs = 2%nat ∧ length ys = 2%nat ∧ length zs = 2%nat ∧
    ∀ i : nat, (i < 2)%nat →
      ∃ c0 c1 c2,
        [[3.0857e21; 0; 0]; [0; 3.0857e21; 0]]%float !! i = Some [c0; c1; c2] ∧
        xs !! i = Some (fdiv c0 lit_3_0857e21) ∧
        ys !! i = Some (fdiv c1 lit_3_0857e21) ∧
        zs !! i = Some (fdiv c2 lit_3_0857e21).
Proof.
  apply (load_particle_data_coordinates "single_nebula_1.hdf5" 0 sample_disk
           sample_file sample_tables
           [[3.0857e21; 0; 0]; [0; 3.0857e21; 0]]%float);
    [vm_compute; reflexivity..|repeat constructor].
Defined.

(** C2 as stated fails below a stride of 1: with [subsample = -1] the
    renderer plots all five sample points, and ⌈5 / -1⌉ is -5. *)
Lemma subsampling_stride_counterexample :
  let rw := plot_3d_particles accept_all 0%nat 1%nat 2%nat None (-1) sample_heap in
  rw.1 = Returned () ∧
  scatter_calls (trace rw.2)
  = [(Arr1 [1; 2; 3; 4; 5]%float, Arr1 [10; 20; 30; 40; 50]%float,
      Arr1 [0; 0; 0; 0; 0]%float, SizeScalar 0.1%float)] ∧
  ceil_div 5 (-1) = -5 ∧
  Z.of_nat (length [1; 2; 3; 4; 5]%float) ≠ ceil_div 5 (-1).
Proof. cbv zeta. split_and?; vm_compute; done. Qed.

(** C2, amended, on the sample points with stride 2. *)
Lemma apply_subsampling_stride_witness :
  1 ≤ 2 ∧
  ∃ x' y' z' masses' w' xs' ys' zs' oms',
    apply_subsampling 0%nat 1%nat 2%nat (Some 3%nat) 2 sample_heap
    = (Returned (x', y', z', masses'), w') ∧
    heap w' !! x' = Some (Arr1 xs') ∧
    heap w' !! y' = Some (Arr1 ys') ∧
    heap w' !! z' = Some (Arr1 zs') ∧
    masses_are w' masses' oms' ∧
    every_kth 2 [1; 2; 3; 4; 5]%float xs' ∧
    every_kth 2 [10; 20; 30; 40; 50]%float ys' ∧
    every_kth 2 [0; 0; 0; 0; 0]%float zs' ∧
    option_Forall2 (every_kth 2) (Some [2; 4; 8; 4; 2]%float) oms'.
Proof.
  split; [lia|].
  apply (apply_subsampling_stride 0%nat 1%nat 2%nat (Some 3%nat) 2 sample_heap);
    [lia|vm_compute; reflexivity..].
Defined.



(** C4 on the sample file, which has no masses. *)
Lemma missing_masses_constant_size_witness :
  (∀ x y z masses w',
     load_particle_data "single_nebula_1.hdf5" 0 sample_disk
     = (Returned (x, y, z, masses), w') →
     masses = None) ∧
  (∀ raw, sample_tables !! "Coordinates" = Some (Arr2 3 raw) → nd_wf (Arr2 3 raw) →
          ∃ x y z w',
            load_particle_data "single_nebula_1.hdf5" 0 sample_disk
            = (Returned (x, y, z, None), w')) ∧
  (∀ x y z k (w2 : world float),
     point_sizes None w2 = (Returned (SizeScalar lit_0_1), w2) ∧
     let rw := plot_3d_particles accept_all x y z None k w2 in
     (rw.1 = Returned () →
      ∃ xa ya za,
        scatter_calls (trace rw.2)
        = scatter_calls (trace w2) ++ [(xa, ya, za, SizeScalar lit_0_1)])).
Proof.
  apply (missing_masses_constant_size accept_all "single_nebula_1.hdf5" 0
           sample_disk sample_file sample_tables);
    vm_compute; reflexivity.
Defined.

(** C7 as stated fails on the empty mass array, all of whose elements are
    zero: [np.max] raises. *)
Lemma zero_masses_counterexample :
  heap sample_heap !! 5%nat = Some (Arr1 []) ∧
  Forall (λ v, v = 0%float ∨ v = (-0)%float) [] ∧
  point_sizes (Some 5%nat) sample_heap = (Raised ValueError, sample_heap).
Proof. split; [|split]; [vm_compute; reflexivity|constructor|vm_compute; reflexivity]. Qed.

(** C7, amended, on zeros of both signs. *)
Lemma zero_masses_nan_sizes_witness :
  ∃ top, np_max (Arr1 [0; -0; 0]%float) = Returned top ∧
         (top = 0%float ∨ top = (-0)%float) ∧
         point_sizes (Some 6%nat) sample_heap
         = (Returned (SizeArray (Arr1 [nan; nan; nan])), sample_heap).
Proof.
  apply (zero_masses_nan_sizes sample_heap 6%nat [0; -0; 0]%float);
    [vm_compute; reflexivity|done|].
  repeat (apply Forall_cons_2; [first [by left|by right]|]). constructor.
Defined.

(** C9 on the sample points: the x array after a subsampled plot. *)
Lemma plot_3d_particles_preserves_arrays_witness :
  heap (plot_3d_particles accept_all 0%nat 1%nat 2%nat (Some 3%nat) 2 sample_heap).2
    !! 0%nat
  = Some (Arr1 [1; 2; 3; 4; 5]%float).
Proof.
  apply (plot_3d_particles_preserves_arrays accept_all 0%nat 1%nat 2%nat
           (Some 3%nat) 2 sample_heap 0%nat).
  vm_compute; reflexivity.
Defined.


(** ** The script at sample inputs *)

Example thousands_groups :
  thousands 999 = "999" ∧ thousands 1000 = "1,000" ∧
  thousands (1234 * 1000 + 567) = "1,234,567".
Proof. cbv zeta. split_and?; vm_compute; reflexivity. Qed.

(** The end-to-end scenario of the specification: the sample file loads as
    x = [1, 0], y = [0, 1], z = [0, 0] without masses, no handle stays open,
    and the plot is a scatter of 2 points of size 0.1 under the title
    "3D Particle Distribution (N=2)". *)
Example main_on_sample_file :
  let rw := main accept_all sample_disk in
  rw.1 = Returned () ∧
  handles rw.2 = ∅ ∧
  disk rw.2 = disk sample_disk ∧
  trace rw.2 =
    [EvPrint "Loading particles from single_nebula_1.hdf5...";
     EvPrint "Plotting 2 particles...";
     EvFigure 10 8; EvAddSubplot3d;
     EvScatter (Arr1 [1; 0]%float) (Arr1 [0; 1]%float) (Arr1 [0; 0]%float)
               (SizeScalar 0.1%float);
     EvSetLabel AxisX "X [kpc]"; EvSetLabel AxisY "Y [kpc]";
     EvSetLabel AxisZ "Z [kpc]";
     EvSetTitle "3D Particle Distribution (N=2)";
     EvGrid false;
     EvPaneFill AxisX false; EvPaneFill AxisY false; EvPaneFill AxisZ false;
     EvPaneEdgeColor AxisX "w"; EvPaneEdgeColor AxisY "w";
     EvPaneEdgeColor AxisZ "w";
     EvSetBoxAspect 1 1 1; EvViewInit 30 45;
     EvSaveFig "single_nebula_1.png"; EvTightLayout; EvShow].
Proof. cbv zeta. split_and?; vm_compute; reflexivity. Qed.

(** The loader's exceptions: no such file, no such group, no [Coordinates]
    table, a table of two columns.  No handle stays open on any of them. *)
Example load_particle_data_missing_file :
  load_particle_data "absent.hdf5" 0 sample_disk
  = (Raised (FileNotFoundError "absent.hdf5"), sample_disk).
Proof. cbv zeta. split_and?; vm_compute; reflexivity. Qed.

Example load_particle_data_missing_group :
  load_particle_data "single_nebula_1.hdf5" 4 sample_disk
  = (Raised (KeyError "PartType4"), sample_disk).
Proof. cbv zeta. split_and?; vm_compute; reflexivity. Qed.

Example load_particle_data_missing_coordinates :
  let w := World {[ "m.hdf5" := {[ "PartType0" := {[ "Masses" := Arr1 [1%float] ]} ]} ]}
                 ∅ ∅ [] in
  load_particle_data "m.hdf5" 0 w = (Raised (KeyError "Coordinates"), w).
Proof. cbv zeta. split_and?; vm_compute; reflexivity. Qed.

Example load_particle_data_two_columns :
  let w := World {[ "c.hdf5" := {[ "PartType0" :=
                     {[ "Coordinates" := Arr2 2 [[1; 2]]%float ]} ]} ]}
                 ∅ ∅ [] in
  let rw := load_particle_data "c.hdf5" 0 w in
  rw.1 = Raised IndexError ∧ handles rw.2 = ∅ ∧ disk rw.2 = disk w.
Proof. cbv zeta. split_and?; vm_compute; reflexivity. Qed.

(** With masses and a stride of 2 the renderer plots the points 0, 2, 4
    with sizes from the masses 2, 8, 2. *)
Example plot_3d_particles_on_sample_points :
  let rw := plot_3d_particles accept_all 0%nat 1%nat 2%nat (Some 3%nat) 2 sample_heap in
  rw.1 = Returned () ∧
  scatter_calls (trace rw.2)
  = [(Arr1 [1; 3; 5]%float, Arr1 [10; 30; 50]%float, Arr1 [0; 0; 0]%float,
      SizeArray (Arr1 [1.3250000000000002; 5; 1.3250000000000002]%float))].
Proof. cbv zeta. split_and?; vm_compute; reflexivity. Qed.

(** * Further properties of the script *)

Section LoaderFacts.
Context {F : Type} `{!Dtype F}.
Implicit Types (w : world F) (a : ndarray F).

Lemma world_eta w : World (disk w) (handles w) (heap w) (trace w) = w.
Proof. by destruct w. Qed.

Lemma wp_eq {A} (m : py F A) w r w' :
  wp m w (λ r0 w0, r0 = r ∧ w0 = w') → m w = (r, w').
Proof. unfold wp. intros [<- <-]. apply surjective_pairing. Qed.

Lemma close_fresh w h path :
  handles w !! h = None →
  h5_close h (World (disk w) (<[h:=path]> (handles w)) (heap w) (trace w)) = w.
Proof.
  intros Hh. unfold h5_close. simpl. rewrite delete_insert_id by done.
  apply world_eta.
Qed.

(** X1: the loader's lookups fail in order.  A path that names no file
    raises [FileNotFoundError]; a file without the group [PartType<n>]
    raises [KeyError] with that name; a group without [Coordinates] raises
    [KeyError 'Coordinates'], whether or not it has masses.  Each time the
    world is left exactly as it was: no handle stays open, no array is
    made. *)
Theorem load_particle_data_not_found filename part_type w :
  match disk w !! filename with
  | None =>
      load_particle_data filename part_type w
      = (Raised (FileNotFoundError filename), w)
  | Some content =>
      match content !! ("PartType" +:+ pretty part_type) with
      | None =>
          load_particle_data filename part_type w
          = (Raised (KeyError ("PartType" +:+ pretty part_type)), w)
      | Some tables =>
          tables !! "Coordinates" = None →
          load_particle_data filename part_type w
          = (Raised (KeyError "Coordinates"), w)
      end
  end.
Proof.
  destruct (disk w !! filename) as [content|] eqn:Hd.
  2:{ apply wp_eq. unfold load_particle_data. apply wp_with_file. by rewrite Hd. }
  destruct (content !! _) as [tables|] eqn:Hg.
  2:{ apply wp_eq. unfold load_particle_data. apply wp_with_file. rewrite Hd.
      intros h Hh. apply wp_bind. eapply wp_file_getitem; [apply lookup_insert_eq|done|].
      rewrite Hg. split; [done|]. by apply close_fresh. }
  intros Hc. apply wp_eq. unfold load_particle_data. apply wp_with_file. rewrite Hd.
  intros h Hh. apply wp_bind. eapply wp_file_getitem; [apply lookup_insert_eq|done|].
  rewrite Hg. apply wp_bind. eapply wp_group_getitem; [apply lookup_insert_eq|done..|].
  rewrite Hc. split; [done|]. by apply close_fresh.
Qed.


Lemma result_arrays_raised (r : outcome (nat * nat * nat * option nat)) w e :
  result_arrays (r, w) = Raised e → r = Raised e.
Proof.
  unfold result_arrays. simpl. destruct r as [[[[x y] z] m]|e']; congruence.
Qed.


(** X3: the masses are handed back as the file has them: not divided by
    the length unit, and of whatever shape and length, the number of
    particles playing no part. *)
Theorem load_particle_data_masses_verbatim
    filename part_type w content tables ma x y z masses w' :
  disk w !! filename = Some content →
  content !! ("PartType" +:+ pretty part_type) = Some tables →
  tables !! "Masses" = Some ma →
  load_particle_data filename part_type w = (Returned (x, y, z, masses), w') →
  ∃ m, masses = Some m ∧ heap w' !! m = Some ma.
Proof.
  intros Hd Hg Hm Hrun.
  pose proof (wp_run _ _ _ _ _ Hrun (load_particle_data_spec filename part_type w))
    as [_ Hr].
  rewrite Hd in Hr. unfold snapshot_arrays in Hr. rewrite Hg, Hm in Hr.
  unfold result_arrays in Hr. simpl in Hr.
  repeat case_match; try done.
  simplify_eq. destruct masses as [m|]; [|done].
  exists m. split; [done|]. simpl in *. congruence.
Qed.

(** Reading through a handle leaves the world as it is. *)
Lemma h5_content_reads h w : (h5_content h w).2 = w.
Proof. unfold h5_content. by repeat case_match. Qed.

Lemma file_getitem_reads h name w : (file_getitem h name w).2 = w.
Proof.
  unfold file_getitem. rewrite bind_run.
  pose proof (h5_content_reads h w) as Hc.
  destruct (h5_content h w) as [[c|e] w1]; simpl in Hc; subst; [|done].
  by destruct (c !! name).
Qed.

Lemma group_tables_reads g w : (group_tables g w).2 = w.
Proof.
  unfold group_tables. rewrite bind_run.
  pose proof (h5_content_reads (g_file g) w) as Hc.
  destruct (h5_content (g_file g) w) as [[c|e] w1]; simpl in Hc; subst; [|done].
  by destruct (c !! g_name g).
Qed.

Lemma group_getitem_reads g name w : (group_getitem g name w).2 = w.
Proof.
  unfold group_getitem. rewrite bind_run.
  pose proof (group_tables_reads g w) as Hc.
  destruct (group_tables g w) as [[t|e] w1]; simpl in Hc; subst; [|done].
  by destruct (t !! name).
Qed.

Lemma group_contains_reads g name w : (group_contains g name w).2 = w.
Proof.
  unfold group_contains. rewrite bind_run.
  pose proof (group_tables_reads g w) as Hc.
  by destruct (group_tables g w) as [[t|e] w1]; simpl in Hc; subst.
Qed.

Lemma dataset_read_reads d w : (dataset_read d w).2 = w.
Proof.
  unfold dataset_read. rewrite bind_run.
  pose proof (group_tables_reads (d_group d) w) as Hc.
  destruct (group_tables (d_group d) w) as [[t|e] w1]; simpl in Hc; subst; [|done].
  by destruct (t !! d_name d).
Qed.

(** A step that only reads: the continuation runs in the same world. *)
Lemma wp_bind_reads {A B} (m : py F A) (k : A → py F B) w Q :
  (m w).2 = w →
  (∀ r, match r with
        | Returned x => wp (k x) w Q
        | Raised e => Q (Raised e) w
        end) →
  wp (m ≫= k) w Q.
Proof.
  intros Hm HQ. apply wp_bind. unfold wp at 1. rewrite Hm. apply HQ.
Qed.

Lemma load_body_fresh h (part_type : Z) w :
  wp (group ← file_getitem h ("PartType" +:+ pretty part_type);
      dset ← group_getitem group "Coordinates";
      raw ← dataset_read dset;
      let coords := nd_map (λ v, fdiv v lit_3_0857e21) raw in
      x ← column_obj 0 coords;
      y ← column_obj 1 coords;
      z ← column_obj 2 coords;
      has_masses ← group_contains group "Masses";
      masses ← (if has_masses : bool then
                  dm ← group_getitem group "Masses";
                  m ← dataset_read dm;
                  l ← alloc m;
                  mret (Some l)
                else mret None);
      mret (x, y, z, masses)) w
     (λ r w',
        match r with
        | Returned (x, y, z, masses) =>
            NoDup (x :: y :: z :: option_list masses) ∧
            Forall (λ l, heap w !! l = None) (x :: y :: z :: option_list masses)
        | Raised _ => True
        end).
Proof.
  apply wp_bind_reads; [apply file_getitem_reads|]. intros [group|]; [|done].
  apply wp_bind_reads; [apply group_getitem_reads|]. intros [dset|]; [|done].
  apply wp_bind_reads; [apply dataset_read_reads|]. intros [raw|]; [|done].
  cbv zeta. set (coords := nd_map _ raw).
  apply wp_bind, wp_column_obj. destruct (nd_column 0 coords); [|done].
  intros x Hx.
  apply wp_bind, wp_column_obj. destruct (nd_column 1 coords); [|done].
  intros y Hy. simpl in Hy. apply lookup_insert_None in Hy as [Hy Hxy].
  apply wp_bind, wp_column_obj. destruct (nd_column 2 coords); [|done].
  intros z Hz. simpl in Hz.
  apply lookup_insert_None in Hz as [Hz Hyz].
  apply lookup_insert_None in Hz as [Hz Hxz].
  apply wp_bind_reads; [apply group_contains_reads|]. intros [[|]|]; [| |done].
  - apply wp_bind, wp_bind_reads; [apply group_getitem_reads|]. intros [dm|]; [|done].
    apply wp_bind_reads; [apply dataset_read_reads|]. intros [ma|]; [|done].
    apply wp_bind, wp_alloc. intros m Hm. simpl in Hm.
    apply lookup_insert_None in Hm as [Hm Hzm].
    apply lookup_insert_None in Hm as [Hm Hym].
    apply lookup_insert_None in Hm as [Hm Hxm].
    apply wp_ret, wp_ret. simpl. split.
    + repeat (apply NoDup_cons; split;
                [rewrite ?elem_of_cons, ?elem_of_nil; intuition congruence|]).
      apply NoDup_nil_2.
    + by repeat constructor.
  - apply wp_bind, wp_ret, wp_ret. simpl. split.
    + repeat (apply NoDup_cons; split;
                [rewrite ?elem_of_cons, ?elem_of_nil; intuition congruence|]).
      apply NoDup_nil_2.
    + by repeat constructor.
Qed.

(** X4: what a returning call of the loader leaves behind: its three or
    four results are pairwise distinct array objects that did not exist
    before the call, every array that existed is unchanged, and nothing has
    been printed or plotted. *)
Theorem load_particle_data_new_objects filename part_type w x y z masses w' :
  load_particle_data filename part_type w = (Returned (x, y, z, masses), w') →
  NoDup (x :: y :: z :: option_list masses) ∧
  Forall (λ l, heap w !! l = None ∧ is_Some (heap w' !! l))
         (x :: y :: z :: option_list masses) ∧
  trace w' = trace w ∧
  ∀ l a, heap w !! l = Some a → heap w' !! l = Some a.
Proof.
  intros Hrun.
  pose proof (wp_run _ _ _ _ _ Hrun (load_particle_data_spec filename part_type w))
    as [Ha Hr].
  assert (wp (load_particle_data filename part_type) w
            (λ r w', match r with
                     | Returned (x, y, z, masses) =>
                         NoDup (x :: y :: z :: option_list masses) ∧
                         Forall (λ l, heap w !! l = None)
                                (x :: y :: z :: option_list masses)
                     | Raised _ => True
                     end)) as Hfresh.
  { unfold load_particle_data. apply wp_with_file.
    destruct (disk w !! filename); [|done].
    intros h Hh. eapply wp_mono; [apply load_body_fresh|]. by intros [[[[??]?]?]|]. }
  apply (wp_run _ _ _ _ _ Hrun) in Hfresh as [Hnd Hnew].
  split; [done|]. split.
  - assert (Forall (λ l, is_Some (heap w' !! l)) (x :: y :: z :: option_list masses))
      as Hsome.
    { unfold result_arrays in Hr. simpl in Hr.
      destruct (disk w !! filename); [|done].
      destruct (snapshot_arrays _ _) as [[[[xa ya] za] oma]|]; [|done].
      injection Hr as Hx Hy Hz Hm.
      repeat (constructor; [by eexists|]).
      destruct masses as [m|], oma as [ma|]; simpl in *; try done.
      injection Hm as Hm. by repeat constructor. }
    apply Forall_and. done.
  - destruct Ha as (_ & _ & Ht & Hs). split; [done|].
    intros l a Hl. by eapply lookup_weaken.
Qed.

Lemma group_name_inj (p q : Z) :
  "PartType" +:+ pretty p = "PartType" +:+ pretty q → p = q.
Proof. intros H. by simplify_eq/=. Qed.

(** X5: the loader reads one particle type: writing or replacing the group
    of another type in the file changes neither the outcome nor the arrays
    of a call. *)
Theorem load_particle_data_other_type filename (p q : Z) g w content :
  disk w !! filename = Some content →
  p ≠ q →
  result_arrays
    (load_particle_data filename p
       (World (<[filename := <["PartType" +:+ pretty q := g]> content]> (disk w))
              (handles w) (heap w) (trace w)))
  = result_arrays (load_particle_data filename p w).
Proof.
  intros Hd Hpq.
  set (w2 := World _ _ _ _).
  pose proof (load_particle_data_spec filename p w) as [_ Hr].
  pose proof (load_particle_data_spec filename p w2) as [_ Hr2].
  rewrite <- surjective_pairing in Hr, Hr2. rewrite Hr, Hr2, Hd.
  subst w2. simpl. rewrite lookup_insert_eq.
  unfold snapshot_arrays. rewrite lookup_insert_ne; [done|].
  intros Hn. by apply group_name_inj in Hn.
Qed.

End LoaderFacts.

(** A lookup in a heap grown by allocations at distinct places. *)
Ltac lookup_allocated :=
  simpl;
  repeat first [rewrite lookup_insert_eq
               |rewrite lookup_insert_ne by congruence];
  done.

Section RendererFacts.
Context {F : Type} `{!Dtype F}.
Context (mpl_scatter_ok : ndarray F → ndarray F → ndarray F → marker_size F → bool).
Implicit Types (w : world F) (a : ndarray F).

Lemma every_kth_elem {A} (k : Z) (l l' : list A) (v : A) :
  every_kth k l l' → v ∈ l' → v ∈ l.
Proof.
  intros [_ Hi] Hv. apply list_elem_of_lookup in Hv as [i Hv].
  rewrite Hi in Hv. by eapply list_elem_of_lookup_2.
Qed.

(** [a[::k]] for a stride [k ≥ 1]: it returns, in the shape of [a], every
    [k]-th entry of the first axis; of nothing it leaves nothing. *)
Lemma nd_slice_step_spec (k : Z) a :
  1 ≤ k →
  ∃ a', nd_slice_step k a = Returned a' ∧
        Z.of_nat (nd_len a') = ceil_div (Z.of_nat (nd_len a)) k ∧
        (nd_flat a = [] → nd_flat a' = []) ∧
        match a with
        | Arr1 v => ∃ v', a' = Arr1 v' ∧ every_kth k v v'
        | Arr2 n rows => ∃ rows', a' = Arr2 n rows' ∧ every_kth k rows rows'
        end.
Proof.
  intros Hk. destruct a as [v|n rows]; simpl.
  - destruct (py_slice_step_spec k v Hk) as (v' & -> & Hv').
    exists (Arr1 v'). split; [done|]. split; [apply Hv'|]. split; [|by exists v'].
    simpl. intros ->. destruct Hv' as [Hlen _]. simpl in Hlen.
    unfold ceil_div in Hlen. rewrite Z.div_0_l in Hlen by lia.
    destruct v'; [done|simpl in Hlen; lia].
  - destruct (py_slice_step_spec k rows Hk) as (rows' & -> & Hr').
    exists (Arr2 n rows'). split; [done|]. split; [apply Hr'|]. split; [|by exists rows'].
    simpl. intros Hflat.
    assert (Forall (λ r, r = []) rows) as Hall.
    { clear -Hflat. induction rows as [|r rows IH]; [constructor|].
      simpl in Hflat. apply app_eq_nil in Hflat as [-> ?]. constructor; auto. }
    assert (Forall (λ r, r = []) rows') as Hall'.
    { apply Forall_forall. intros r Hr.
      apply (proj1 (Forall_forall _ _) Hall). by eapply every_kth_elem. }
    clear -Hall'. induction Hall' as [|r rows' -> _ IH]; [done|]. by simpl.
Qed.

Lemma slice_obj_spec k l w a Q :
  1 ≤ k → heap w !! l = Some a →
  (∀ l' a', heap w !! l' = None → nd_slice_step k a = Returned a' →
            Q (Returned l')
              (World (disk w) (handles w) (<[l':=a']> (heap w)) (trace w))) →
  wp (slice_obj k l) w Q.
Proof.
  intros Hk Hl HQ. apply wp_slice_obj. rewrite Hl.
  destruct (nd_slice_step_spec k a Hk) as (a' & Ha' & _).
  rewrite Ha'. intros l' Hl'. by apply HQ.
Qed.

(** The subsampling block on existing arrays, for a stride above 1. *)
Lemma apply_subsampling_slices x y z masses k w xa ya za :
  1 < k →
  heap w !! x = Some xa → heap w !! y = Some ya → heap w !! z = Some za →
  (∀ m, masses = Some m → is_Some (heap w !! m)) →
  ∃ x' y' z' masses' w' xa' ya' za',
    apply_subsampling x y z masses k w = (Returned (x', y', z', masses'), w') ∧
    allocates w w' ∧
    nd_slice_step k xa = Returned xa' ∧ heap w' !! x' = Some xa' ∧
    nd_slice_step k ya = Returned ya' ∧ heap w' !! y' = Some ya' ∧
    nd_slice_step k za = Returned za' ∧ heap w' !! z' = Some za' ∧
    match masses with
    | None => masses' = None
    | Some m =>
        ∃ ma ma' m', heap w !! m = Some ma ∧ nd_slice_step k ma = Returned ma' ∧
                     masses' = Some m' ∧ heap w' !! m' = Some ma'
    end.
Proof.
  intros Hk Hx Hy Hz Hm.
  cut (wp (apply_subsampling x y z masses k) w (λ r w',
    ∃ x' y' z' masses' xa' ya' za',
      r = Returned (x', y', z', masses') ∧
      allocates w w' ∧
      nd_slice_step k xa = Returned xa' ∧ heap w' !! x' = Some xa' ∧
      nd_slice_step k ya = Returned ya' ∧ heap w' !! y' = Some ya' ∧
      nd_slice_step k za = Returned za' ∧ heap w' !! z' = Some za' ∧
      match masses with
      | None => masses' = None
      | Some m =>
          ∃ ma ma' m', heap w !! m = Some ma ∧ nd_slice_step k ma = Returned ma' ∧
                       masses' = Some m' ∧ heap w' !! m' = Some ma'
      end)).
  { intros Hwp. apply wp_elim in Hwp
      as (r & w' & Hrun & x' & y' & z' & masses' & xa' & ya' & za' & -> & H').
    by exists x', y', z', masses', w', xa', ya', za'. }
  unfold apply_subsampling. rewrite decide_True by lia.
  apply wp_bind. eapply slice_obj_spec; [lia|done|].
  intros x' xa' Hx' Hsx.
  apply wp_bind. eapply slice_obj_spec; [lia| |].
  { simpl. rewrite lookup_insert_ne by congruence. done. }
  intros y' ya' Hy' Hsy. simpl in Hy'.
  apply lookup_insert_None in Hy' as [Hy' Hxy].
  apply wp_bind. eapply slice_obj_spec; [lia| |].
  { simpl. rewrite !lookup_insert_ne by congruence. done. }
  intros z' za' Hz' Hsz. simpl in Hz'.
  apply lookup_insert_None in Hz' as [Hz' Hyz].
  apply lookup_insert_None in Hz' as [Hz' Hxz].
  apply wp_bind.
  destruct masses as [m|].
  - destruct (Hm m eq_refl) as [ma Hma].
    apply wp_bind. eapply slice_obj_spec; [lia| |].
    { simpl. rewrite !lookup_insert_ne by congruence. done. }
    intros m' ma' Hm' Hsm. simpl in Hm'.
    apply lookup_insert_None in Hm' as [Hm' Hzm].
    apply lookup_insert_None in Hm' as [Hm' Hym].
    apply lookup_insert_None in Hm' as [Hm' Hxm].
    apply wp_ret, wp_ret.
    exists x', y', z', (Some m'), xa', ya', za'.
    split; [done|]. split.
    { repeat split; simpl. repeat (apply insert_subseteq_r; [done|]). done. }
    split; [done|]. split; [lookup_allocated|].
    split; [done|]. split; [lookup_allocated|].
    split; [done|]. split; [lookup_allocated|].
    exists ma, ma', m'. split; [done|]. split; [done|]. split; [done|]. lookup_allocated.
  - apply wp_ret, wp_ret.
    exists x', y', z', None, xa', ya', za'.
    split; [done|]. split.
    { repeat split; simpl. repeat (apply insert_subseteq_r; [done|]). done. }
    split; [done|]. split; [lookup_allocated|].
    split; [done|]. split; [lookup_allocated|].
    split; [done|]. split; [lookup_allocated|]. done.
Qed.

Lemma point_sizes_sizes_of masses w om :
  (λ m, heap w !! m) <$> masses = Some <$> om →
  point_sizes masses w = (sizes_of om, w).
Proof.
  intros Hm. rewrite point_sizes_run.
  destruct masses as [m|], om as [ma|]; simpl in *; try done.
  injection Hm as ->. done.
Qed.

Lemma wp_point_sizes masses w Q :
  Q (point_sizes masses w).1 w → wp (point_sizes masses) w Q.
Proof. unfold wp. by rewrite point_sizes_run. Qed.

Lemma wp_scatter x y z s w Q :
  match heap w !! x, heap w !! y, heap w !! z with
  | Some xa, Some ya, Some za =>
      if mpl_scatter_ok xa ya za s
      then Q (Returned ())
             (World (disk w) (handles w) (heap w) (trace w ++ [EvScatter xa ya za s]))
      else Q (Raised ValueError) w
  | _, _, _ => Q (Raised NameError) w
  end →
  wp (scatter mpl_scatter_ok x y z s) w Q.
Proof.
  unfold wp. rewrite scatter_run.
  destruct (heap w !! x), (heap w !! y), (heap w !! z); try done.
  by destruct (mpl_scatter_ok _ _ _ _).
Qed.

Lemma np_max_empty a : nd_flat a = [] → np_max a = Raised ValueError.
Proof. unfold np_max. by intros ->. Qed.

(** X6: an empty mass array stops the renderer, whatever the stride:
    [np.max] raises [ValueError] once the figure and its 3-D axes exist,
    and no scatter call, no save and no show follows. *)
Theorem plot_3d_particles_empty_masses x y z m k w xa ya za ma :
  heap w !! x = Some xa → heap w !! y = Some ya → heap w !! z = Some za →
  heap w !! m = Some ma →
  nd_flat ma = [] →
  let rw := plot_3d_particles mpl_scatter_ok x y z (Some m) k w in
  rw.1 = Raised ValueError ∧
  trace rw.2 = trace w ++ [EvFigure 10 8; EvAddSubplot3d] ∧
  scatter_calls (trace rw.2) = scatter_calls (trace w).
Proof.
  intros Hx Hy Hz Hm Hflat.
  cut (wp (plot_3d_particles mpl_scatter_ok x y z (Some m) k) w
          (λ r w', r = Raised ValueError ∧
                   trace w' = trace w ++ [EvFigure 10 8; EvAddSubplot3d])).
  { unfold wp. intros [Hr Ht]. split; [done|]. split; [done|].
    simpl. rewrite Ht. unfold scatter_calls. rewrite omap_app. simpl.
    by rewrite app_nil_r. }
  unfold plot_3d_particles.
  apply wp_bind, wp_emit. apply wp_bind, wp_emit. simpl.
  apply wp_bind_eqn. intros r1 w1 H1.
  destruct (decide (k ≤ 1)) as [Hk|Hk].
  - rewrite apply_subsampling_skip in H1 by done. injection H1 as <- <-.
    apply wp_bind, wp_point_sizes. rewrite point_sizes_run. simpl.
    rewrite Hm, (np_max_empty _ Hflat). split; [done|]. by rewrite <- app_assoc.
  - edestruct (apply_subsampling_slices x y z (Some m) k) as
      (x' & y' & z' & masses' & w' & xa' & ya' & za' & Hrun & Ha & _ & _ & _ & _ & _ & _
       & ma0 & ma' & m' & Hma & Hsm & -> & Hm');
      [lia| | | | |].
    5:{ rewrite Hrun in H1. injection H1 as <- <-.
        simpl in Hma. rewrite Hm in Hma. injection Hma as <-.
        destruct (nd_slice_step_spec k ma ltac:(lia)) as (a'' & Ha'' & _ & Hflat' & _).
        rewrite Hsm in Ha''. injection Ha'' as <-.
        apply wp_bind, wp_point_sizes. rewrite point_sizes_run.
        rewrite Hm', (np_max_empty _ (Hflat' Hflat)).
        destruct Ha as (_ & _ & Ht & _). simpl in Ht.
        split; [done|]. by rewrite Ht, <- app_assoc. }
    all: simpl; try done. intros ? [= <-]. by eexists.
Qed.




Lemma every_kth_length {A B} (k : Z) (l1 l1' : list A) (l2 l2' : list B) :
  every_kth k l1 l1' → every_kth k l2 l2' →
  length l2 = length l1 → length l2' = length l1'.
Proof. intros [H1 _] [H2 _] Hl. rewrite Hl in H2. lia. Qed.

Lemma nd_slice_step_arr1 (k : Z) (v : list F) a' :
  1 ≤ k → nd_slice_step k (Arr1 v) = Returned a' →
  ∃ v', a' = Arr1 v' ∧ every_kth k v v'.
Proof.
  intros Hk Ha'.
  destruct (nd_slice_step_spec k (Arr1 v) Hk) as (a'' & Ha'' & _ & _ & Hv).
  rewrite Ha' in Ha''. by injection Ha'' as <-.
Qed.

(** What the subsampling block makes of 1-D arrays of one length, when it
    returns: arrays of one length again, ⌈N/k⌉. *)
Lemma apply_subsampling_lengths x y z masses k w xs ys zs oms x' y' z' masses' w' :
  1 ≤ k →
  heap w !! x = Some (Arr1 xs) →
  heap w !! y = Some (Arr1 ys) →
  heap w !! z = Some (Arr1 zs) →
  masses_are w masses oms →
  length ys = length xs → length zs = length xs →
  (∀ ms, oms = Some ms → length ms = length xs) →
  apply_subsampling x y z masses k w = (Returned (x', y', z', masses'), w') →
  ∃ xs' ys' zs' oms',
    heap w' !! x' = Some (Arr1 xs') ∧
    heap w' !! y' = Some (Arr1 ys') ∧
    heap w' !! z' = Some (Arr1 zs') ∧
    masses_are w' masses' oms' ∧
    Z.of_nat (length xs') = ceil_div (Z.of_nat (length xs)) k ∧
    length ys' = length xs' ∧ length zs' = length xs' ∧
    (is_Some oms' ↔ is_Some oms) ∧
    (∀ ms', oms' = Some ms' → length ms' = length xs').
Proof.
  intros Hk Hx Hy Hz Hm Hly Hlz Hlm Hrun.
  destruct (decide (k ≤ 1)) as [Hk1|Hk1].
  { rewrite apply_subsampling_skip in Hrun by done. injection Hrun as <- <- <- <- <-.
    assert (k = 1) as -> by lia.
    exists xs, ys, zs, oms. do 4 (split; [done|]).
    split; [apply every_kth_one|]. done. }
  edestruct (apply_subsampling_slices x y z masses k w) as
    (x0 & y0 & z0 & m0 & w0 & xa' & ya' & za' & Hrun0 & _
     & Hsx & Hx' & Hsy & Hy' & Hsz & Hz' & Hmasses); [lia|done..| |].
  { intros m ->. destruct oms; [|done]. by eexists. }
  rewrite Hrun0 in Hrun. injection Hrun as <- <- <- <- <-.
  apply nd_slice_step_arr1 in Hsx as (xs' & -> & Hkx); [|done].
  apply nd_slice_step_arr1 in Hsy as (ys' & -> & Hky); [|done].
  apply nd_slice_step_arr1 in Hsz as (zs' & -> & Hkz); [|done].
  destruct masses as [m|], oms as [ms|]; try done; simpl in Hm.
  - destruct Hmasses as (ma & ma' & m' & Hma & Hsm & -> & Hm').
    rewrite Hm in Hma. injection Hma as <-.
    apply nd_slice_step_arr1 in Hsm as (ms' & -> & Hkm); [|done].
    exists xs', ys', zs', (Some ms'). do 4 (split; [done|]).
    split; [apply Hkx|].
    split; [by eapply every_kth_length|].
    split; [by eapply every_kth_length|].
    split; [by split; eexists|].
    intros ? [= <-]. eapply every_kth_length; [exact Hkx|exact Hkm|]. by apply Hlm.
  - subst m0. exists xs', ys', zs', None. do 4 (split; [done|]).
    split; [apply Hkx|].
    split; [by eapply every_kth_length|].
    split; [by eapply every_kth_length|].
    split; [by split; intros []|]. done.
Qed.

(** X7: the count in the title is the count of the plotted points.  For
    1-D arrays of one length N and a stride [k ≥ 1], a returning call hands
    the scatter call x, y and z of length ⌈N/k⌉ each, sizes that are one
    number (without masses) or an array of that same length, and sets the
    title to that count. *)
Theorem plot_3d_particles_plotted_count x y z masses k w xs ys zs oms :
  1 ≤ k →
  heap w !! x = Some (Arr1 xs) →
  heap w !! y = Some (Arr1 ys) →
  heap w !! z = Some (Arr1 zs) →
  masses_are w masses oms →
  length ys = length xs → length zs = length xs →
  (∀ ms, oms = Some ms → length ms = length xs) →
  let rw := plot_3d_particles mpl_scatter_ok x y z masses k w in
  rw.1 = Returned () →
  ∃ (n : nat) xs' ys' zs' s,
    Z.of_nat n = ceil_div (Z.of_nat (length xs)) k ∧
    scatter_calls (trace rw.2)
    = scatter_calls (trace w) ++ [(Arr1 xs', Arr1 ys', Arr1 zs', s)] ∧
    length xs' = n ∧ length ys' = n ∧ length zs' = n ∧
    match s with
    | SizeScalar _ => oms = None
    | SizeArray sa => ∃ ss, sa = Arr1 ss ∧ length ss = n
    end ∧
    EvSetTitle (plot_title n) ∈ trace rw.2.
Proof.
  intros Hk Hx Hy Hz Hm Hly Hlz Hlm rw Hret.
  pose proof (plot_3d_particles_run mpl_scatter_ok x y z masses k w) as [_ Hrun].
  fold rw in Hrun. rewrite Hret in Hrun.
  destruct Hrun as (x' & y' & z' & m' & w1 & s & xa & ya & za
                    & Hsub & Hs & Hx' & Hy' & Hz' & _ & Ht).
  edestruct (apply_subsampling_lengths x y z masses k) as
    (xs' & ys' & zs' & oms' & Hxs' & Hys' & Hzs' & Hm' & Hn & Hly' & Hlz' & Hsome & Hlm');
    [exact Hk| | | | | | | |exact Hsub|]; try done.
  rewrite Hxs' in Hx'. rewrite Hys' in Hy'. rewrite Hzs' in Hz'.
  injection Hx' as <-. injection Hy' as <-. injection Hz' as <-.
  exists (length xs'), xs', ys', zs', s.
  split; [done|]. split.
  { rewrite Ht. unfold scatter_calls. rewrite omap_app. done. }
  do 3 (split; [done|]). split.
  - rewrite point_sizes_run in Hs. injection Hs as Hs.
    destruct m' as [m'|], oms' as [ms'|]; try done; simpl in Hm'.
    + rewrite Hm' in Hs. destruct (np_max (Arr1 ms')) as [top|]; [|done].
      injection Hs as <-. simpl. eexists. split; [done|].
      rewrite !length_fmap. by apply Hlm'.
    + injection Hs as <-. destruct oms as [ms|]; [|done].
      destruct Hsome as [_ Hsome]. by destruct Hsome.
  - rewrite Ht. apply elem_of_app. right. simpl.
    do 6 apply list_elem_of_further. apply list_elem_of_here.
Qed.


(** Past the first element, a stride that reaches beyond the list picks
    nothing. *)
Lemma stride_from_beyond {A} (k skip : nat) (l : list A) :
  (length l ≤ skip)%nat → stride_from k skip l = [].
Proof.
  revert skip. induction l as [|a l IH]; intros skip Hs; [done|].
  simpl in *. destruct skip as [|s]; [lia|]. apply IH. lia.
Qed.

Lemma nd_slice_step_wide (k : Z) (v : list F) :
  1 ≤ k → Z.of_nat (length v) ≤ k →
  nd_slice_step k (Arr1 v) = Returned (Arr1 (take 1 v)).
Proof.
  intros Hk Hv. simpl. unfold py_slice_step.
  rewrite decide_False by lia. rewrite decide_True by lia.
  destruct v as [|a v]; [done|]. simpl.
  rewrite stride_from_beyond; [by rewrite take_0|]. simpl in Hv. lia.
Qed.

(** X8: a stride that is at least the number of particles leaves the
    first particle alone: each subsampled array is the first entry of its
    original (and empty when the original is). *)
Theorem apply_subsampling_wide_stride x y z masses k w xs ys zs oms :
  1 < k →
  heap w !! x = Some (Arr1 xs) →
  heap w !! y = Some (Arr1 ys) →
  heap w !! z = Some (Arr1 zs) →
  masses_are w masses oms →
  Z.of_nat (length xs) ≤ k → Z.of_nat (length ys) ≤ k →
  Z.of_nat (length zs) ≤ k →
  (∀ ms, oms = Some ms → Z.of_nat (length ms) ≤ k) →
  ∃ x' y' z' masses' w',
    apply_subsampling x y z masses k w = (Returned (x', y', z', masses'), w') ∧
    heap w' !! x' = Some (Arr1 (take 1 xs)) ∧
    heap w' !! y' = Some (Arr1 (take 1 ys)) ∧
    heap w' !! z' = Some (Arr1 (take 1 zs)) ∧
    masses_are w' masses' (take 1 <$> oms).
Proof.
  intros Hk Hx Hy Hz Hm Hlx Hly Hlz Hlm.
  edestruct (apply_subsampling_slices x y z masses k w) as
    (x0 & y0 & z0 & m0 & w0 & xa' & ya' & za' & Hrun0 & _
     & Hsx & Hx' & Hsy & Hy' & Hsz & Hz' & Hmasses); [lia|done..| |].
  { intros m ->. destruct oms; [|done]. by eexists. }
  rewrite nd_slice_step_wide in Hsx, Hsy, Hsz by lia.
  injection Hsx as <-. injection Hsy as <-. injection Hsz as <-.
  exists x0, y0, z0, m0, w0. do 4 (split; [done|]).
  destruct masses as [m|], oms as [ms|]; try done; simpl in Hm.
  - destruct Hmasses as (ma & ma' & m' & Hma & Hsm & -> & Hm').
    rewrite Hm in Hma. injection Hma as <-.
    rewrite nd_slice_step_wide in Hsm by (by (lia || apply Hlm)).
    by injection Hsm as <-.
  - by subst m0.
Qed.

(** The whole run without subsampling, whatever becomes of the sizes and
    of the scatter call. *)
Lemma plot_3d_particles_direct_run x y z masses k w xa ya za :
  k ≤ 1 →
  heap w !! x = Some xa → heap w !! y = Some ya → heap w !! z = Some za →
  plot_3d_particles mpl_scatter_ok x y z masses k w
  = let started := World (disk w) (handles w) (heap w)
                     (trace w ++ [EvFigure 10 8; EvAddSubplot3d]) in
    match (point_sizes masses w).1 with
    | Raised e => (Raised e, started)
    | Returned s =>
        if mpl_scatter_ok xa ya za s then
          (Returned (),
           World (disk w) (handles w) (heap w)
             (trace w ++ [EvFigure 10 8; EvAddSubplot3d; EvScatter xa ya za s]
                      ++ axes_styling (nd_len xa)
                      ++ [EvSaveFig "single_nebula_1.png"; EvTightLayout; EvShow]))
        else (Raised ValueError, started)
    end.
Proof.
  intros Hk Hx Hy Hz. cbv zeta.
  assert (∀ t, (point_sizes masses (World (disk w) (handles w) (heap w) t)).1
               = (point_sizes masses w).1) as Hsz.
  { intros t. by rewrite !point_sizes_run. }
  destruct ((point_sizes masses w).1) as [s|e] eqn:Hs;
    [destruct (mpl_scatter_ok xa ya za s) eqn:Hok|].
  all: apply wp_eq; unfold plot_3d_particles.
  all: apply wp_bind, wp_emit; apply wp_bind, wp_emit; simpl.
  all: apply wp_bind_eqn; intros r1 w1 H1.
  all: rewrite apply_subsampling_skip in H1 by done; injection H1 as <- <-.
  all: apply wp_bind, wp_point_sizes; rewrite Hsz.
  3: by rewrite <- app_assoc.
  all: apply wp_bind, wp_scatter; simpl; rewrite Hx, Hy, Hz, Hok.
  2: by rewrite <- app_assoc.
  do 3 (apply wp_bind, wp_emit; simpl).
  apply wp_bind. unfold len_obj. apply wp_bind, wp_deref. simpl. rewrite Hx.
  apply wp_ret.
  do 12 (apply wp_bind, wp_emit; simpl).
  apply wp_emit. simpl.
  split; [done|]. f_equal. by rewrite <- !app_assoc.
Qed.

(** X9: the renderer without subsampling ([subsample ≤ 1], the script's
    setting), call by call.  When the sizes cannot be computed or the
    scatter call refuses its arguments, the exception leaves a figure with
    3-D axes and nothing else: no save, no show.  Otherwise the call
    returns after exactly: figure, axes, one scatter of the caller's
    arrays, the three axis labels, the title with [len(x)], the grid and
    pane styling, the box aspect, the view angle, and then save, layout
    and show. *)
Theorem plot_3d_particles_unsampled x y z masses k w xa ya za om :
  k ≤ 1 →
  heap w !! x = Some xa → heap w !! y = Some ya → heap w !! z = Some za →
  (λ m, heap w !! m) <$> masses = Some <$> om →
  let rw := plot_3d_particles mpl_scatter_ok x y z masses k w in
  match sizes_of om with
  | Raised e =>
      rw.1 = Raised e ∧
      trace rw.2 = trace w ++ [EvFigure 10 8; EvAddSubplot3d]
  | Returned s =>
      if mpl_scatter_ok xa ya za s then
        rw.1 = Returned () ∧
        trace rw.2
        = trace w ++ [EvFigure 10 8; EvAddSubplot3d; EvScatter xa ya za s]
                  ++ axes_styling (nd_len xa)
                  ++ [EvSaveFig "single_nebula_1.png"; EvTightLayout; EvShow]
      else
        rw.1 = Raised ValueError ∧
        trace rw.2 = trace w ++ [EvFigure 10 8; EvAddSubplot3d]
  end.
Proof.
  intros Hk Hx Hy Hz Hm rw. subst rw.
  rewrite (plot_3d_particles_direct_run x y z masses k w xa ya za) by done.
  cbv zeta. rewrite (point_sizes_sizes_of masses w om) by done. simpl.
  destruct (sizes_of om) as [s|e]; [|done].
  by destruct (mpl_scatter_ok xa ya za s).
Qed.

End RendererFacts.

Section SizeOrder.
Context {F : Type} `{MonotoneRounding F}.







End SizeOrder.

Section MainFacts.
Context {F : Type} `{!Dtype F}.
Context (mpl_scatter_ok : ndarray F → ndarray F → ndarray F → marker_size F → bool).
Implicit Types (w : world F) (a : ndarray F).

(** What the loader leaves, by value, in the world after the first line
    of output. *)
Lemma main_load w :
  let w1 := World (disk w) (handles w) (heap w)
              (trace w ++ [EvPrint ("Loading particles from " +:+ SNAPSHOT_FILE +:+ "...")]) in
  ∃ r w2,
    load_particle_data SNAPSHOT_FILE PARTICLE_TYPE w1 = (r, w2) ∧
    allocates w1 w2 ∧
    result_arrays (r, w2) =
      match disk w !! SNAPSHOT_FILE with
      | None => Raised (FileNotFoundError SNAPSHOT_FILE)
      | Some content =>
          match snapshot_arrays content PARTICLE_TYPE with
          | Raised e => Raised e
          | Returned (x, y, z, m) => Returned (Some x, Some y, Some z, Some <$> m)
          end
      end.
Proof.
  intros w1.
  destruct (wp_elim _ _ _ (load_particle_data_spec SNAPSHOT_FILE PARTICLE_TYPE w1))
    as (r & w2 & Hrun & Ha & Hr).
  by exists r, w2.
Qed.

Lemma main_run w :
  main mpl_scatter_ok w
  = match load_particle_data SNAPSHOT_FILE PARTICLE_TYPE
            (World (disk w) (handles w) (heap w)
               (trace w ++ [EvPrint ("Loading particles from " +:+ SNAPSHOT_FILE +:+ "...")]))
    with
    | (Raised e, w2) => (Raised e, w2)
    | (Returned (x, y, z, masses), w2) =>
        match heap w2 !! x with
        | None => (Raised NameError, w2)
        | Some xa =>
            plot_3d_particles mpl_scatter_ok x y z masses SUBSAMPLE
              (World (disk w2) (handles w2) (heap w2)
                 (trace w2 ++ [EvPrint ("Plotting " +:+ thousands (nd_len xa) +:+ " particles...")]))
        end
    end.
Proof.
  unfold main. rewrite bind_run. unfold emit at 1. cbv beta iota.
  rewrite bind_run.
  destruct (load_particle_data _ _ _) as [[[[[x y] z] masses]|e] w2]; [|done].
  rewrite bind_run. unfold len_obj. rewrite bind_run. unfold deref.
  destruct (heap w2 !! x) as [xa|]; [|done].
  done.
Qed.

(** X12: when the snapshot cannot be loaded (no file, no [PartType0]
    group, no usable [Coordinates]) the script raises the loader's
    exception after its first line of output and nothing else: no second
    line, no figure, no file left open. *)
Theorem main_load_failure w e :
  match disk w !! SNAPSHOT_FILE with
  | None => e = FileNotFoundError SNAPSHOT_FILE
  | Some content => snapshot_arrays content PARTICLE_TYPE = Raised e
  end →
  let rw := main mpl_scatter_ok w in
  rw.1 = Raised e ∧
  trace rw.2
  = trace w ++ [EvPrint "Loading particles from single_nebula_1.hdf5..."] ∧
  disk rw.2 = disk w ∧ handles rw.2 = handles w.
Proof.
  intros He rw. subst rw. rewrite main_run.
  destruct (main_load w) as (r & w2 & Hrun & (Hd & Hh & Ht & _) & Hr).
  rewrite Hrun.
  assert (result_arrays (r, w2) = Raised e) as Hr'.
  { rewrite Hr. destruct (disk w !! SNAPSHOT_FILE); [by rewrite He|by subst e]. }
  apply result_arrays_raised in Hr' as ->. simpl.
  split; [done|]. split; [by rewrite Ht|]. done.
Qed.

(** X13: the script from end to end.  When the snapshot has the three
    columns, its sizes can be computed and the scatter call accepts them,
    the script returns with no file left open and every earlier array
    unchanged, having printed its two lines, the second with the number of
    loaded particles, and plotted all of them: [SUBSAMPLE = 1] drops
    none. *)
Theorem main_plots_snapshot w content xa ya za om s :
  disk w !! SNAPSHOT_FILE = Some content →
  snapshot_arrays content PARTICLE_TYPE = Returned (xa, ya, za, om) →
  sizes_of om = Returned s →
  mpl_scatter_ok xa ya za s = true →
  ∃ w',
    main mpl_scatter_ok w = (Returned (), w') ∧
    handles w' = handles w ∧ heap w ⊆ heap w' ∧
    trace w'
    = trace w
      ++ [EvPrint "Loading particles from single_nebula_1.hdf5...";
          EvPrint ("Plotting " +:+ thousands (nd_len xa) +:+ " particles...");
          EvFigure 10 8; EvAddSubplot3d; EvScatter xa ya za s]
      ++ axes_styling (nd_len xa)
      ++ [EvSaveFig "single_nebula_1.png"; EvTightLayout; EvShow].
Proof.
  intros Hd Hsnap Hs Hok. rewrite main_run.
  destruct (main_load w) as (r & w2 & Hrun & (Hd2 & Hh2 & Ht2 & Hsub) & Hr).
  rewrite Hrun. rewrite Hd, Hsnap in Hr.
  unfold result_arrays in Hr. simpl in Hr.
  destruct r as [[[[x y] z] masses]|e]; [|done].
  injection Hr as Hx Hy Hz Hm. rewrite Hx.
  rewrite (plot_3d_particles_direct_run mpl_scatter_ok x y z masses SUBSAMPLE _ xa ya za);
    [|done..].
  cbv zeta. rewrite (point_sizes_sizes_of masses _ om) by done.
  simpl. rewrite Hs, Hok. eexists. split; [done|]. simpl.
  split; [done|]. split; [done|].
  rewrite Ht2. simpl. by rewrite <- !app_assoc.
Qed.

End MainFacts.

(** ** The count with separators *)

Lemma group3_strip_aux (n : nat) (l : list ascii) :
  (length l ≤ n)%nat →
  filter (λ c, c ≠ ","%char) (group3 l) = filter (λ c, c ≠ ","%char) l.
Proof.
  revert l. induction n as [|n IH]; intros l Hl.
  { destruct l; [done|simpl in Hl; lia]. }
  destruct l as [|a [|b [|c [|d rest]]]]; try done.
  change (group3 (a :: b :: c :: d :: rest))
    with ([a; b; c] ++ [","%char] ++ group3 (d :: rest)).
  change (a :: b :: c :: d :: rest) with ([a; b; c] ++ d :: rest).
  rewrite !filter_app, IH by (simpl in *; lia).
  f_equal.
Qed.

Lemma pretty_N_char_digit (x : N) : pretty_N_char x ≠ ","%char.
Proof. unfold pretty_N_char. by repeat case_match. Qed.

Lemma pretty_N_go_digits (x : N) (s : string) :
  Forall (λ c, c ≠ ","%char) (list_ascii_of_string s) →
  Forall (λ c, c ≠ ","%char) (list_ascii_of_string (pretty_N_go x s)).
Proof.
  revert s. induction (N.lt_wf_0 x) as [x _ IH]; intros s Hs.
  assert (x = 0 ∨ 0 < x)%N as [->|Hx] by lia.
  - by rewrite pretty_N_go_0.
  - rewrite pretty_N_go_step by done. apply IH.
    { by apply N.div_lt. }
    simpl. constructor; [apply pretty_N_char_digit|done].
Qed.

Lemma pretty_nat_digits (n : nat) :
  Forall (λ c, c ≠ ","%char) (list_ascii_of_string (pretty n)).
Proof.
  unfold pretty, pretty_nat, pretty, pretty_N.
  case_decide.
  - repeat constructor. by intros [=].
  - by apply pretty_N_go_digits.
Qed.

Lemma filter_all {A} (P : A → Prop) `{!∀ x, Decision (P x)} (l : list A) :
  Forall P l → filter P l = l.
Proof.
  induction 1 as [|x l Hx _ IH]; [done|].
  by rewrite filter_cons, decide_True, IH.
Qed.

(** X14: the separators of [f'{n:,}'] only separate: without its commas
    the formatted count is the decimal numeral of [n], so two counts are
    formatted alike only when they are equal. *)
Theorem thousands_strip_commas (n : nat) :
  strip_commas (thousands n) = pretty n ∧
  ∀ m : nat, thousands n = thousands m → n = m.
Proof.
  assert (∀ k : nat, strip_commas (thousands k) = pretty k) as Hstrip.
  { intros k. unfold strip_commas, thousands.
    rewrite list_ascii_of_string_of_list_ascii.
    rewrite filter_reverse, (group3_strip_aux _ _ (Nat.le_refl _)).
    rewrite <- filter_reverse, reverse_involutive.
    rewrite (filter_all _ _ (pretty_nat_digits k)).
    apply string_of_list_ascii_of_string. }
  split; [done|].
  intros m Hnm. apply (inj pretty). by rewrite <- !Hstrip, Hnm.
Qed.


(** ** The further properties at sample inputs *)

(** X1 on a missing path, a missing particle type and a group without
    coordinates. *)
Lemma load_particle_data_not_found_witness :
  load_particle_data "absent.hdf5" 0 sample_disk
  = (Raised (FileNotFoundError "absent.hdf5"), sample_disk) ∧
  load_particle_data "single_nebula_1.hdf5" 1 sample_disk
  = (Raised (KeyError "PartType1"), sample_disk) ∧
  load_particle_data "single_nebula_1.hdf5" 0 sample_bare_disk
  = (Raised (KeyError "Coordinates"), sample_bare_disk).
Proof.
  split; [exact (load_particle_data_not_found "absent.hdf5" 0 sample_disk)|].
  split; [exact (load_particle_data_not_found "single_nebula_1.hdf5" 1 sample_disk)|].
  exact (load_particle_data_not_found "single_nebula_1.hdf5" 0 sample_bare_disk
           eq_refl).
Defined.


(** X3 on the same file: three masses for two particles. *)
Lemma load_particle_data_masses_verbatim_witness :
  let rw := load_particle_data "single_nebula_1.hdf5" 0 sample_wide_disk in
  ∃ m, Some 3%nat = Some m ∧ heap rw.2 !! m = Some (Arr1 [2; 4; 8]%float).
Proof.
  cbv zeta.
  apply (load_particle_data_masses_verbatim "single_nebula_1.hdf5" 0 sample_wide_disk
           {[ "PartType0" := sample_wide_tables ]} sample_wide_tables
           (Arr1 [2; 4; 8]%float) 0%nat 1%nat 2%nat (Some 3%nat));
    vm_compute; reflexivity.
Defined.

(** X4 on the same file. *)
Lemma load_particle_data_new_objects_witness :
  let rw := load_particle_data "single_nebula_1.hdf5" 0 sample_wide_disk in
  NoDup [0; 1; 2; 3]%nat ∧
  Forall (λ l, heap sample_wide_disk !! l = None ∧ is_Some (heap rw.2 !! l))
         [0; 1; 2; 3]%nat ∧
  trace rw.2 = trace sample_wide_disk ∧
  ∀ l a, heap sample_wide_disk !! l = Some a → heap rw.2 !! l = Some a.
Proof.
  cbv zeta.
  apply (load_particle_data_new_objects "single_nebula_1.hdf5" 0 sample_wide_disk
           0%nat 1%nat 2%nat (Some 3%nat)).
  vm_compute; reflexivity.
Defined.

(** X5: the sample file with a group [PartType1] added. *)
Lemma load_particle_data_other_type_witness :
  result_arrays
    (load_particle_data "single_nebula_1.hdf5" 0
       (World (<["single_nebula_1.hdf5" :=
                   <["PartType" +:+ pretty 1 := sample_wide_tables]> sample_file]>
                 (disk sample_disk))
              (handles sample_disk) (heap sample_disk) (trace sample_disk)))
  = result_arrays (load_particle_data "single_nebula_1.hdf5" 0 sample_disk).
Proof.
  apply (load_particle_data_other_type "single_nebula_1.hdf5" 0 1 sample_wide_tables
           sample_disk sample_file); [vm_compute; reflexivity|lia].
Defined.

(** X6 on the sample points with the empty mass array and stride 2. *)
Lemma plot_3d_particles_empty_masses_witness :
  let rw := plot_3d_particles accept_all 0%nat 1%nat 2%nat (Some 5%nat) 2 sample_heap in
  rw.1 = Raised ValueError ∧
  trace rw.2 = trace sample_heap ++ [EvFigure 10 8; EvAddSubplot3d] ∧
  scatter_calls (trace rw.2) = scatter_calls (trace sample_heap).
Proof.
  apply (plot_3d_particles_empty_masses accept_all 0%nat 1%nat 2%nat 5%nat 2 sample_heap
           (Arr1 [1; 2; 3; 4; 5]%float) (Arr1 [10; 20; 30; 40; 50]%float)
           (Arr1 [0; 0; 0; 0; 0]%float) (Arr1 []));
    vm_compute; reflexivity.
Defined.

(** X7 on the sample points with stride 2. *)
Lemma plot_3d_particles_plotted_count_witness :
  let rw := plot_3d_particles accept_all 0%nat 1%nat 2%nat (Some 3%nat) 2 sample_heap in
  ∃ (n : nat) xs' ys' zs' s,
    Z.of_nat n = ceil_div (Z.of_nat (length [1; 2; 3; 4; 5]%float)) 2 ∧
    scatter_calls (trace rw.2)
    = scatter_calls (trace sample_heap) ++ [(Arr1 xs', Arr1 ys', Arr1 zs', s)] ∧
    length xs' = n ∧ length ys' = n ∧ length zs' = n ∧
    match s with
    | SizeScalar _ => Some [2; 4; 8; 4; 2]%float = None
    | SizeArray sa => ∃ ss, sa = Arr1 ss ∧ length ss = n
    end ∧
    EvSetTitle (plot_title n) ∈ trace rw.2.
Proof.
  apply (plot_3d_particles_plotted_count accept_all 0%nat 1%nat 2%nat (Some 3%nat) 2
           sample_heap [1; 2; 3; 4; 5]%float [10; 20; 30; 40; 50]%float
           [0; 0; 0; 0; 0]%float (Some [2; 4; 8; 4; 2]%float));
    [lia|vm_compute; reflexivity..| |vm_compute; reflexivity].
  intros ms [= <-]. reflexivity.
Defined.

(** X8 on the five sample points with stride 7. *)
Lemma apply_subsampling_wide_stride_witness :
  ∃ x' y' z' masses' w',
    apply_subsampling 0%nat 1%nat 2%nat (Some 3%nat) 7 sample_heap
    = (Returned (x', y', z', masses'), w') ∧
    heap w' !! x' = Some (Arr1 (take 1 [1; 2; 3; 4; 5]%float)) ∧
    heap w' !! y' = Some (Arr1 (take 1 [10; 20; 30; 40; 50]%float)) ∧
    heap w' !! z' = Some (Arr1 (take 1 [0; 0; 0; 0; 0]%float)) ∧
    masses_are w' masses' (take 1 <$> Some [2; 4; 8; 4; 2]%float).
Proof.
  apply (apply_subsampling_wide_stride 0%nat 1%nat 2%nat (Some 3%nat) 7 sample_heap);
    [lia|vm_compute; reflexivity..|simpl; lia|simpl; lia|simpl; lia|].
  intros ms [= <-]. simpl. lia.
Defined.

(** X9 on the sample points with the masses [2, 4, 8]. *)
Lemma plot_3d_particles_unsampled_witness :
  let rw := plot_3d_particles accept_all 0%nat 1%nat 2%nat (Some 7%nat) 1 sample_heap in
  rw.1 = Returned () ∧
  trace rw.2
  = trace sample_heap
    ++ [EvFigure 10 8; EvAddSubplot3d;
        EvScatter (Arr1 [1; 2; 3; 4; 5]%float) (Arr1 [10; 20; 30; 40; 50]%float)
          (Arr1 [0; 0; 0; 0; 0]%float)
          (SizeArray (Arr1 [1.3250000000000002; 2.5500000000000003; 5]%float))]
    ++ axes_styling 5
    ++ [EvSaveFig "single_nebula_1.png"; EvTightLayout; EvShow].
Proof.
  refine (plot_3d_particles_unsampled accept_all 0%nat 1%nat 2%nat (Some 7%nat) 1
            sample_heap (Arr1 [1; 2; 3; 4; 5]%float) (Arr1 [10; 20; 30; 40; 50]%float)
            (Arr1 [0; 0; 0; 0; 0]%float) (Some (Arr1 [2; 4; 8]%float)) _ _ _ _ _);
    [lia|vm_compute; reflexivity..].
Defined.



(** X12 on the file without coordinates. *)
Lemma main_load_failure_witness :
  let rw := main accept_all sample_bare_disk in
  rw.1 = Raised (KeyError "Coordinates") ∧
  trace rw.2
  = trace sample_bare_disk ++ [EvPrint "Loading particles from single_nebula_1.hdf5..."] ∧
  disk rw.2 = disk sample_bare_disk ∧ handles rw.2 = handles sample_bare_disk.
Proof.
  apply (main_load_failure accept_all sample_bare_disk (KeyError "Coordinates")).
  vm_compute; reflexivity.
Defined.

(** X13 on the sample file. *)
Lemma main_plots_snapshot_witness :
  ∃ w',
    main accept_all sample_disk = (Returned (), w') ∧
    handles w' = handles sample_disk ∧ heap sample_disk ⊆ heap w' ∧
    trace w'
    = trace sample_disk
      ++ [EvPrint "Loading particles from single_nebula_1.hdf5...";
          EvPrint ("Plotting " +:+ thousands 2 +:+ " particles...");
          EvFigure 10 8; EvAddSubplot3d;
          EvScatter (Arr1 [1; 0]%float) (Arr1 [0; 1]%float) (Arr1 [0; 0]%float)
            (SizeScalar 0.1%float)]
      ++ axes_styling 2
      ++ [EvSaveFig "single_nebula_1.png"; EvTightLayout; EvShow].
Proof.
  apply (main_plots_snapshot accept_all sample_disk sample_file
           (Arr1 [1; 0]%float) (Arr1 [0; 1]%float) (Arr1 [0; 0]%float) None
           (SizeScalar 0.1%float));
    vm_compute; reflexivity.
Defined.
